(** * web-service: comment store, token service and authorization gate

    A shallow embedding of the Go sources

      - internal/storage/comments.go  (the in-memory [CommentStore]),
      - internal/auth/jwt.go          (the [JWTManager]),
      - internal/api/middleware.go    (CORS and bearer-token middleware),
      - internal/api/handlers.go, encode.go (the comment handlers),

    together with the properties the specification states about them. *)

From Stdlib Require Import ZArith String Ascii List Lia DecimalString.
From stdpp Require Import base option countable gmap strings list fin_maps.

Local Open Scope string_scope.
Local Open Scope Z_scope.

(** ** Shared data: time, contexts, errors *)

(** [time.Time], as an instant counted in nanoseconds.  The zero value
    [time.Time{}] is instant [0]. *)
Definition Time := Z.
Definition zeroTime : Time := 0.

(** [Time.Before]. *)
Definition Before (t u : Time) : bool := bool_decide (t < u).

(** The two errors a [context.Context] can report through [ctx.Err()]. *)
Inductive ctx_error := Canceled | DeadlineExceeded.

(** A context key.  Go compares keys by type and value, so the string
    ["user_id"] of type [api.contextKey] and the plain string
    ["request_id"] the logging middleware uses live in different
    name spaces. *)
Inductive ctx_key :=
  | ContextKey (k : string)
  | StringKey (k : string).

Definition ctx_key_eqb (a b : ctx_key) : bool :=
  match a, b with
  | ContextKey x, ContextKey y => String.eqb x y
  | StringKey x, StringKey y => String.eqb x y
  | _, _ => false
  end.

(** [context.Context]: whether [ctx.Done()] is closed (and then which error
    [ctx.Err()] returns), and the chain of values attached with
    [context.WithValue], innermost first.  All values this program
    attaches are strings. *)
Record Context := mkContext {
  ctx_err : option ctx_error;
  ctx_values : list (ctx_key * string)
}.

Definition Background : Context := mkContext None [].

(** [context.WithValue]: the new pair shadows older ones with the same key. *)
Definition WithValue (ctx : Context) (key : ctx_key) (val : string) : Context :=
  mkContext (ctx_err ctx) ((key, val) :: ctx_values ctx).

Fixpoint assoc_lookup (key : ctx_key) (l : list (ctx_key * string)) : option string :=
  match l with
  | [] => None
  | (k, v) :: l' => if ctx_key_eqb k key then Some v else assoc_lookup key l'
  end.

(** [ctx.Value(key)] followed by the type assertion to [string]. *)
Definition Value (ctx : Context) (key : ctx_key) : option string :=
  assoc_lookup key (ctx_values ctx).

(** Go's [error] values that the store and the handlers distinguish. *)
Inductive error :=
  | ErrNotFound
  | CtxErr (e : ctx_error).

(** A Go result pair [(T, error)] in which exactly one side is meaningful. *)
Inductive result (A : Type) :=
  | Ok (a : A)
  | Err (e : error).
Arguments Ok {A} a.
Arguments Err {A} e.

(** ** internal/storage/comments.go *)

Module storage.

Record Comment := mkComment {
  ID : string;
  Content : string;
  Author : string;
  CreatedAt : Time;
  UserID : string
}.

(** [Comment{}]. *)
Definition zeroComment : Comment := mkComment "" "" "" zeroTime "".

Definition set_ID (c : Comment) (id : string) : Comment :=
  mkComment id (Content c) (Author c) (CreatedAt c) (UserID c).
Definition set_CreatedAt (c : Comment) (t : Time) : Comment :=
  mkComment (ID c) (Content c) (Author c) t (UserID c).
Definition set_UserID (c : Comment) (u : string) : Comment :=
  mkComment (ID c) (Content c) (Author c) (CreatedAt c) u.

(** The [comments] field of [CommentStore].  Every method holds [mu] for
    its whole body ([Lock]/[RLock] first, [Unlock] deferred), so in a
    sequential run a method is a function from the map to a result and a
    new map.  The lock itself is modelled in [Module concurrent]. *)
Abbreviation CommentStore := (gmap string Comment).

Definition NewCommentStore : CommentStore := ∅.

(** The [select] on [ctx.Done()] with a [default] branch that opens every
    method: [Some e] when the context is done. *)
Definition ctx_done (ctx : Context) : option error :=
  CtxErr <$> ctx_err ctx.

(** [Create].  [id] is what [util.GenerateID()] returns at this call and
    [now] what [time.Now()] returns. *)
Definition Create (ctx : Context) (c : Comment) (id : string) (now : Time)
    (s : CommentStore) : result Comment * CommentStore :=
  match ctx_done ctx with
  | Some e => (Err e, s)
  | None =>
      let c := set_ID c id in
      let c := set_CreatedAt c now in
      (Ok c, <[ID c := c]> s)
  end.

(** [List]: the values in the map's iteration order, which Go leaves
    unspecified; here the order of [map_to_list]. *)
Definition List (ctx : Context) (s : CommentStore) : result (list Comment) * CommentStore :=
  match ctx_done ctx with
  | Some e => (Err e, s)
  | None => (Ok ((map_to_list s).*2), s)
  end.

Definition Get (ctx : Context) (id : string) (s : CommentStore) : result Comment * CommentStore :=
  match ctx_done ctx with
  | Some e => (Err e, s)
  | None =>
      match s !! id with
      | None => (Err ErrNotFound, s)
      | Some comment => (Ok comment, s)
      end
  end.

(** [Delete] returns only an [error]; [None] is Go's [nil]. *)
Definition Delete (ctx : Context) (id : string) (s : CommentStore) : option error * CommentStore :=
  match ctx_done ctx with
  | Some e => (Some e, s)
  | None =>
      match s !! id with
      | None => (Some ErrNotFound, s)
      | Some _ => (None, delete id s)
      end
  end.

Definition Update (ctx : Context) (id : string) (c : Comment) (s : CommentStore)
    : result Comment * CommentStore :=
  match ctx_done ctx with
  | Some e => (Err e, s)
  | None =>
      match s !! id with
      | None => (Err ErrNotFound, s)
      | Some existing =>
          let c := set_ID c (ID existing) in
          let c := set_CreatedAt c (CreatedAt existing) in
          let c := set_UserID c (UserID existing) in
          (Ok c, <[id := c]> s)
      end
  end.

Definition ListByUser (ctx : Context) (userID : string) (s : CommentStore)
    : result (list Comment) * CommentStore :=
  match ctx_done ctx with
  | Some e => (Err e, s)
  | None =>
      (Ok (List.filter (fun c => String.eqb (UserID c) userID) ((map_to_list s).*2)), s)
  end.

(** [DeleteByUser]: deleting from a Go map while ranging over it is safe
    and removes every entry that satisfies the test. *)
Definition DeleteByUser (ctx : Context) (userID : string) (s : CommentStore)
    : option error * CommentStore :=
  match ctx_done ctx with
  | Some e => (Some e, s)
  | None => (None, filter (fun kv => UserID kv.2 ≠ userID) s)
  end.

(** [DeleteOlderThan].  [age] is a [time.Duration] in nanoseconds and [now]
    the reading of [time.Now()]; [now.Add(-age)] is taken without the
    saturation of Go's time arithmetic at the ends of its range. *)
Definition DeleteOlderThan (ctx : Context) (age : Z) (now : Time) (s : CommentStore)
    : option error * CommentStore :=
  match ctx_done ctx with
  | Some e => (Some e, s)
  | None =>
      let cutoff := now + - age in
      (None, filter (fun kv => ¬ (CreatedAt kv.2 < cutoff)) s)
  end.

Definition Count (ctx : Context) (s : CommentStore) : (Z * option error) * CommentStore :=
  match ctx_done ctx with
  | Some e => ((0, Some e), s)
  | None => ((Z.of_nat (size s), None), s)
  end.

End storage.

(** ** internal/auth/jwt.go *)

Module auth.

(** *** The part of github.com/golang-jwt/jwt/v5 that jwt.go calls *)

(** The signing methods the library registers, by family.  For the HMAC
    family the hash is kept, since it selects the MAC. *)
Inductive HMACHash := SHA256 | SHA384 | SHA512.

Inductive SigningMethod :=
  | SigningMethodHMAC (h : HMACHash)
  | SigningMethodRSA (name : string)
  | SigningMethodRSAPSS (name : string)
  | SigningMethodECDSA (name : string)
  | SigningMethodEd25519
  | SigningMethodNone.

Definition SigningMethodHS256 : SigningMethod := SigningMethodHMAC SHA256.

(** [Alg()] of a method. *)
Definition Alg (m : SigningMethod) : string :=
  match m with
  | SigningMethodHMAC SHA256 => "HS256"
  | SigningMethodHMAC SHA384 => "HS384"
  | SigningMethodHMAC SHA512 => "HS512"
  | SigningMethodRSA name | SigningMethodRSAPSS name | SigningMethodECDSA name => name
  | SigningMethodEd25519 => "EdDSA"
  | SigningMethodNone => "none"
  end.

(** [jwt.GetSigningMethod]: the registry lookup by the header's [alg]. *)
Definition GetSigningMethod (alg : string) : option SigningMethod :=
  if String.eqb alg "HS256" then Some (SigningMethodHMAC SHA256)
  else if String.eqb alg "HS384" then Some (SigningMethodHMAC SHA384)
  else if String.eqb alg "HS512" then Some (SigningMethodHMAC SHA512)
  else if String.eqb alg "RS256" || String.eqb alg "RS384" || String.eqb alg "RS512"
    then Some (SigningMethodRSA alg)
  else if String.eqb alg "PS256" || String.eqb alg "PS384" || String.eqb alg "PS512"
    then Some (SigningMethodRSAPSS alg)
  else if String.eqb alg "ES256" || String.eqb alg "ES384" || String.eqb alg "ES512"
    then Some (SigningMethodECDSA alg)
  else if String.eqb alg "EdDSA" then Some SigningMethodEd25519
  else if String.eqb alg "none" then Some SigningMethodNone
  else None.

(** [jwt.NumericDate]: an instant truncated to [jwt.TimePrecision], one
    second. *)
Definition Second : Z := 1000000000.
Definition Hour : Z := 3600 * Second.

(** [Time.Truncate(d)] for [d > 0]: round down to a multiple of [d]. *)
Definition Truncate (t : Time) (d : Z) : Time := t - t mod d.

Definition NumericDate := Time.
Definition NewNumericDate (t : Time) : NumericDate := Truncate t Second.

(** [jwt.RegisteredClaims]; a nil [*NumericDate] is [None]. *)
Record RegisteredClaims := mkRegisteredClaims {
  Issuer : string;
  Subject : string;
  Audience : list string;
  ExpiresAt : option NumericDate;
  NotBefore : option NumericDate;
  IssuedAt : option NumericDate;
  JTI : string
}.

(** [Claims] of jwt.go, embedding [RegisteredClaims]. *)
Record Claims := mkClaims {
  UserID : string;
  Role : string;
  Registered : RegisteredClaims
}.

(** The JOSE header: [typ] and [alg] ([None] when [alg] is missing or not
    a string). *)
Record Header := mkHeader {
  typ : string;
  alg : option string
}.

(** [jwt.Token] as [Parser.ParseUnverified] leaves it: the decoded header
    and claims, the text of the first two segments (over which the
    signature is computed) and the decoded third segment. *)
Record Token := mkToken {
  TokenHeader : Header;
  TokenClaims : Claims;
  SigningInput : string;
  Signature : string
}.

(** Modelled from the spec: the wire format and the MAC of the golang-jwt
    library, which is a dependency and not part of the sources.  The spec
    says a token is "a cryptographically signed credential encoding
    subject identifier, role, issued-at time, not-before time, and expiry
    time", valid "only if its signature verifies against the server's
    secret".
      - [hmac h key text] is the HMAC of [text] under [key] with hash [h];
      - [SigningString hd c] is [Token.SigningString]: the base64url
        segments of the JSON header and claims joined by a dot;
      - [Compact text sig] is the compact serialization
        [text + "." + EncodeSegment(sig)];
      - [DecodeSegments s] splits a compact serialization and decodes its
        three segments, [None] when it is malformed;
      - decoding a compact serialization gives back what was encoded. *)
Class JWTLib := {
  hmac : HMACHash -> string -> string -> string;
  SigningString : Header -> Claims -> string;
  Compact : string -> string -> string;
  DecodeSegments : string -> option Token;
  DecodeSegments_Compact : forall hd c sig,
    DecodeSegments (Compact (SigningString hd c) sig)
    = Some (mkToken hd c (SigningString hd c) sig)
}.

(** The library's sentinel errors that [ParseWithClaims] can wrap, and the
    claim errors the validator joins. *)
Inductive claim_error := ErrTokenExpired | ErrTokenNotValidYet.

Inductive jwt_error :=
  | ErrTokenMalformed
  | ErrTokenUnverifiable
  | ErrTokenSignatureInvalid
  | ErrTokenInvalidClaims (errs : list claim_error).

(** What the key function returns: the key, or an error. *)
Definition Keyfunc := SigningMethod -> option string.

(** [Validator.verifyExpiresAt] and [verifyNotBefore] with no leeway and
    neither claim required: [now] must be before [exp] and not before
    [nbf]. *)
Definition verifyExpiresAt (rc : RegisteredClaims) (now : Time) : list claim_error :=
  match ExpiresAt rc with
  | None => []
  | Some exp => if Before now exp then [] else [ErrTokenExpired]
  end.

Definition verifyNotBefore (rc : RegisteredClaims) (now : Time) : list claim_error :=
  match NotBefore rc with
  | None => []
  | Some nbf => if negb (Before now nbf) then [] else [ErrTokenNotValidYet]
  end.

(** [Validator.Validate] of the default validator: expiry and not-before
    are checked, issued-at, audience, issuer and subject are not. *)
Definition Validate (rc : RegisteredClaims) (now : Time) : list claim_error :=
  verifyExpiresAt rc now ++ verifyNotBefore rc now.

(** [SigningMethodHMAC.Verify] with a [[]byte] key. *)
Definition HMACVerify `{JWTLib} (h : HMACHash) (text sig key : string) : bool :=
  String.eqb sig (hmac h key text).

(** Modelled from the spec: [jwt.ParseWithClaims] of the golang-jwt
    library (not part of the sources), for a key function that returns an
    HMAC key.  The spec's [validate] "verifies signature using the
    expected signing algorithm family only (rejects tokens whose header
    claims a different algorithm ...); rejects tokens outside their
    validity window; returns the embedded subject and role on success".
    The steps are in the library's order: decode, look the method up, ask
    the key function, verify the signature, validate the claims.  The
    result carries the token's [Valid] flag. *)
Definition ParseWithClaims `{JWTLib} (tokenStr : string) (keyFunc : Keyfunc) (now : Time)
    : (Token * bool) + jwt_error :=
  match DecodeSegments tokenStr with
  | None => inr ErrTokenMalformed
  | Some token =>
      match alg (TokenHeader token) ≫= GetSigningMethod with
      | None => inr ErrTokenUnverifiable
      | Some method =>
          match keyFunc method with
          | None => inr ErrTokenUnverifiable
          | Some key =>
              match method with
              | SigningMethodHMAC h =>
                  if HMACVerify h (SigningInput token) (Signature token) key then
                    match Validate (Registered (TokenClaims token)) now with
                    | [] => inl (token, true)
                    | errs => inr (ErrTokenInvalidClaims errs)
                    end
                  else inr ErrTokenSignatureInvalid
              | _ => inr ErrTokenSignatureInvalid
              end
          end
      end
  end.

(** *** jwt.go itself *)

Record JWTManager := mkJWTManager {
  secretKey : string;
  expiry : Z
}.

Definition NewJWTManager (secretKey : string) (expiry : Z) : JWTManager :=
  mkJWTManager secretKey expiry.

(** The two errors [ValidateToken] builds with [fmt.Errorf]. *)
Inductive validate_error :=
  | InvalidToken (e : jwt_error)
  | InvalidTokenClaims.

(** [GenerateToken].  [time.Now()] is read three times, for [ExpiresAt],
    [IssuedAt] and [NotBefore] in that order; [t_exp], [t_iat] and [t_nbf]
    are the three readings.  Signing with HS256 and a [[]byte] key cannot
    fail, so the error result is always nil and is left out. *)
Definition GenerateToken `{JWTLib} (m : JWTManager) (userID role : string)
    (t_exp t_iat t_nbf : Time) : string :=
  let claims :=
    mkClaims userID role
      (mkRegisteredClaims "" "" []
         (Some (NewNumericDate (t_exp + expiry m)))
         (Some (NewNumericDate t_nbf))
         (Some (NewNumericDate t_iat))
         "") in
  let header := mkHeader "JWT" (Some (Alg SigningMethodHS256)) in
  let text := SigningString header claims in
  Compact text (hmac SHA256 (secretKey m) text).

(** The key function [ValidateToken] passes to the parser. *)
Definition keyFunc (m : JWTManager) : Keyfunc :=
  fun method =>
    match method with
    | SigningMethodHMAC _ => Some (secretKey m)
    | _ => None
    end.

(** [ValidateToken]; [now] is the clock reading the validator takes. *)
Definition ValidateToken `{JWTLib} (m : JWTManager) (tokenStr : string) (now : Time)
    : Claims + validate_error :=
  match ParseWithClaims tokenStr (keyFunc m) now with
  | inr err => inr (InvalidToken err)
  | inl (token, valid) =>
      if negb valid then inr InvalidTokenClaims
      else inl (TokenClaims token)
  end.

End auth.

(** ** internal/api: middleware.go, handlers.go, encode.go *)

Module api.

(** *** Strings *)

(** [strings.HasPrefix]. *)
Fixpoint HasPrefix (s prefix : string) {struct prefix} : bool :=
  match prefix, s with
  | EmptyString, _ => true
  | String _ _, EmptyString => false
  | String p prefix', String c s' => Ascii.eqb c p && HasPrefix s' prefix'
  end.

Fixpoint drop_bytes (n : nat) (s : string) : string :=
  match n, s with
  | O, _ => s
  | S _, EmptyString => EmptyString
  | S n', String _ s' => drop_bytes n' s'
  end.

(** [strings.TrimPrefix]. *)
Definition TrimPrefix (s prefix : string) : string :=
  if HasPrefix s prefix then drop_bytes (String.length prefix) s else s.

(** [len(s)]: the number of bytes. *)
Definition len (s : string) : Z := Z.of_nat (String.length s).

(** [strings.TrimSpace] of Go's standard library, which removes leading and
    trailing Unicode white space; it is a parameter of the handlers. *)
Class GoStrings := {
  TrimSpace : string -> string
}.

(** The white-space bytes of ASCII: tab, line feed, vertical tab, form
    feed, carriage return and space. *)
Definition asciiSpace (c : ascii) : bool :=
  let n := nat_of_ascii c in
  ((9 <=? n)%nat && (n <=? 13)%nat) || (n =? 32)%nat.

Fixpoint TrimLeft_ascii (s : string) : string :=
  match s with
  | EmptyString => EmptyString
  | String c s' => if asciiSpace c then TrimLeft_ascii s' else s
  end.

Fixpoint TrimRight_ascii (s : string) : string :=
  match s with
  | EmptyString => EmptyString
  | String c s' =>
      match TrimRight_ascii s' with
      | EmptyString => if asciiSpace c then EmptyString else String c EmptyString
      | t => String c t
      end
  end.

(** [strings.TrimSpace] on strings of ASCII bytes, where it removes exactly
    the six bytes above at both ends. *)
Definition TrimSpace_ascii (s : string) : string :=
  TrimRight_ascii (TrimLeft_ascii s).

Definition ascii_strings : GoStrings := {| TrimSpace := TrimSpace_ascii |}.

(** [fmt.Sprintf("%d", n)] for a length. *)
Definition format_d (n : nat) : string :=
  NilEmpty.string_of_uint (Nat.to_uint n).

(** *** Requests and responses *)

(** What [json.NewDecoder(r.Body).Decode(&v)] makes of the request body for
    a [createCommentRequest]: an error with its message, or the two fields
    (a field the object lacks is left empty). *)
Inductive Body :=
  | BodyUndecodable (msg : string)
  | BodyJSON (content author : string).

Record Request := mkRequest {
  Method : string;
  Path : string;
  Header : gmap string string;
  ReqBody : Body;
  ReqContext : Context
}.

(** [r.Header.Get(key)]: the empty string when the header is absent. *)
Definition Header_Get (r : Request) (key : string) : string :=
  default "" (Header r !! key).

(** [r.WithContext(ctx)]. *)
Definition WithContext (r : Request) (ctx : Context) : Request :=
  mkRequest (Method r) (Path r) (Header r) (ReqBody r) ctx.

Record commentResponse := mkCommentResponse {
  resp_ID : string;
  resp_Content : string;
  resp_Author : string;
  resp_CreatedAt : Time;
  resp_UserID : string
}.

(** What has been written to the body of a response. *)
Inductive Written :=
  | Nothing
  | Text (s : string)
  | JSONProblems (problems : gmap string string)
  | JSONComment (c : commentResponse)
  | JSONComments (cs : list commentResponse).

(** The state of an [http.ResponseWriter]: the header map, the status code
    ([0] until [WriteHeader] is called) and the body. *)
Record ResponseWriter := mkResponseWriter {
  RespHeader : gmap string string;
  Status : Z;
  RespBody : Written
}.

Definition newResponseWriter : ResponseWriter := mkResponseWriter ∅ 0 Nothing.

Definition Header_Set (w : ResponseWriter) (key val : string) : ResponseWriter :=
  mkResponseWriter (<[key := val]> (RespHeader w)) (Status w) (RespBody w).

(** [w.WriteHeader(code)]: only the first call counts. *)
Definition WriteHeader (w : ResponseWriter) (code : Z) : ResponseWriter :=
  if Status w =? 0 then mkResponseWriter (RespHeader w) code (RespBody w) else w.

Definition writeBody (w : ResponseWriter) (b : Written) : ResponseWriter :=
  mkResponseWriter (RespHeader w) (Status w) b.

Definition StatusOK : Z := 200.
Definition StatusCreated : Z := 201.
Definition StatusNoContent : Z := 204.
Definition StatusBadRequest : Z := 400.
Definition StatusUnauthorized : Z := 401.
Definition StatusForbidden : Z := 403.
Definition StatusNotFound : Z := 404.
Definition StatusMethodNotAllowed : Z := 405.
Definition StatusInternalServerError : Z := 500.

(** [http.Error]: a plain-text reply, the message followed by a newline. *)
Definition http_Error (w : ResponseWriter) (msg : string) (code : Z) : ResponseWriter :=
  let w := Header_Set w "Content-Type" "text/plain; charset=utf-8" in
  let w := Header_Set w "X-Content-Type-Options" "nosniff" in
  let w := WriteHeader w code in
  writeBody w (Text (msg ++ String (ascii_of_nat 10) "")).

(** [encode]: a JSON reply.  Encoding the values used here cannot fail; a
    failing write to the connection is only logged and is not modelled. *)
Definition encode (w : ResponseWriter) (status : Z) (v : Written) : ResponseWriter :=
  let w := Header_Set w "Content-Type" "application/json" in
  let w := WriteHeader w status in
  writeBody w v.

(** What the environment supplies while one request is served: the clock
    reading the token validator takes, the clock reading and identifier
    [CommentStore.Create] draws, and the identifier the logging middleware
    makes up. *)
Record Env := mkEnv {
  env_auth_now : Time;
  env_id : string;
  env_now : Time;
  env_request_id : string
}.

(** [http.Handler], with the store the handlers share made explicit. *)
Definition Handler :=
  Env -> ResponseWriter -> Request -> storage.CommentStore
  -> ResponseWriter * storage.CommentStore.

(** *** middleware.go *)

Definition UserIDKey : ctx_key := ContextKey "user_id".
Definition UserRoleKey : ctx_key := ContextKey "user_role".

Definition isPublicPath (path : string) : bool :=
  String.eqb path "/healthz" || String.eqb path "/api/v1/login".

Definition newAuthMiddleware `{auth.JWTLib} (jwtSecret : string) (next : Handler) : Handler :=
  let jwtManager := auth.NewJWTManager jwtSecret (24 * auth.Hour) in
  fun env w r s =>
    if isPublicPath (Path r) then next env w r s
    else
      let authHeader := Header_Get r "Authorization" in
      if negb (HasPrefix authHeader "Bearer ") then
        (http_Error w "Unauthorized" StatusUnauthorized, s)
      else
        let tokenStr := TrimPrefix authHeader "Bearer " in
        match auth.ValidateToken jwtManager tokenStr (env_auth_now env) with
        | inr _ => (http_Error w "Invalid token" StatusUnauthorized, s)
        | inl claims =>
            let ctx := WithValue (ReqContext r) UserIDKey (auth.UserID claims) in
            let ctx := WithValue ctx UserRoleKey (auth.Role claims) in
            next env w (WithContext r ctx) s
        end.

Definition newCORSMiddleware (next : Handler) : Handler :=
  fun env w r s =>
    let w := Header_Set w "Access-Control-Allow-Origin" "*" in
    let w := Header_Set w "Access-Control-Allow-Methods" "GET, POST, PUT, DELETE, OPTIONS" in
    let w := Header_Set w "Access-Control-Allow-Headers" "Content-Type, Authorization" in
    if String.eqb (Method r) "OPTIONS" then (WriteHeader w StatusOK, s)
    else next env w r s.

Definition UserIDFromContext (ctx : Context) : string :=
  default "" (Value ctx UserIDKey).

Definition UserRoleFromContext (ctx : Context) : string :=
  default "" (Value ctx UserRoleKey).

(** [logging.NewLoggingMiddleware]: it attaches a request identifier under
    the plain string key ["request_id"] and logs; the wrapper around the
    response writer only records the status. *)
Definition NewLoggingMiddleware (next : Handler) : Handler :=
  fun env w r s =>
    let ctx := WithValue (ReqContext r) (StringKey "request_id") (env_request_id env) in
    next env w (WithContext r ctx) s.

(** [NewServer]: the middleware stack around the router [mux]. *)
Definition NewServer `{auth.JWTLib} (jwtSecret : string) (mux : Handler) : Handler :=
  let handler := mux in
  let handler := NewLoggingMiddleware handler in
  let handler := newAuthMiddleware jwtSecret handler in
  let handler := newCORSMiddleware handler in
  handler.

(** *** handlers.go and encode.go *)

Record createCommentRequest := mkCreateCommentRequest {
  req_Content : string;
  req_Author : string
}.

(** [createCommentRequest.Valid]. *)
Definition Valid `{GoStrings} (r : createCommentRequest) : gmap string string :=
  let problems : gmap string string := ∅ in
  let problems :=
    if String.eqb (TrimSpace (req_Content r)) "" then
      <["content" := "content is required"]> problems
    else problems in
  let problems :=
    if 1000 <? len (req_Content r) then
      <["content" := "content must be less than 1000 characters"]> problems
    else problems in
  let problems :=
    if String.eqb (TrimSpace (req_Author r)) "" then
      <["author" := "author is required"]> problems
    else problems in
  problems.

(** [decodeValid[createCommentRequest]]: the value, the problems (the nil
    map is the empty map) and the error, [None] for nil. *)
Definition decodeValid `{GoStrings} (r : Request)
    : createCommentRequest * gmap string string * option string :=
  match ReqBody r with
  | BodyUndecodable msg =>
      (mkCreateCommentRequest "" "", ∅, Some ("decode json: " ++ msg))
  | BodyJSON content author =>
      let v := mkCreateCommentRequest content author in
      let problems := Valid v in
      if (0 <? size problems)%nat then
        (v, problems,
         Some ("invalid api.createCommentRequest: " ++ format_d (size problems) ++ " problems"))
      else (v, ∅, None)
  end.

Definition toResponse (c : storage.Comment) : commentResponse :=
  mkCommentResponse (storage.ID c) (storage.Content c) (storage.Author c)
    (storage.CreatedAt c) (storage.UserID c).

(** [handleComments], mounted at /api/v1/comments.  Calls to the logger
    leave the response and the store alone and are left out. *)
Definition handleComments `{GoStrings} : Handler :=
  fun env w r s =>
    let ctx := ReqContext r in
    let userID := UserIDFromContext ctx in
    if String.eqb (Method r) "GET" then
      match storage.List ctx s with
      | (Err _, s) => (http_Error w "Internal Server Error" StatusInternalServerError, s)
      | (Ok comments, s) => (encode w StatusOK (JSONComments (toResponse <$> comments)), s)
      end
    else if String.eqb (Method r) "POST" then
      match decodeValid r with
      | (_, _, Some err) => (http_Error w err StatusBadRequest, s)
      | (req, problems, None) =>
          if (0 <? size problems)%nat then
            (encode w StatusBadRequest (JSONProblems problems), s)
          else
            match storage.Create ctx
                    (storage.mkComment "" (req_Content req) (req_Author req) zeroTime userID)
                    (env_id env) (env_now env) s with
            | (Err _, s) => (http_Error w "Internal Server Error" StatusInternalServerError, s)
            | (Ok comment, s) => (encode w StatusCreated (JSONComment (toResponse comment)), s)
            end
      end
    else (http_Error w "Method Not Allowed" StatusMethodNotAllowed, s).

(** [handleComment], mounted at /api/v1/comments/. *)
Definition handleComment `{GoStrings} : Handler :=
  fun env w r s =>
    let ctx := ReqContext r in
    let userID := UserIDFromContext ctx in
    let commentID := TrimPrefix (Path r) "/api/v1/comments/" in
    if String.eqb commentID "" then
      (http_Error w "Comment ID required" StatusBadRequest, s)
    else if String.eqb (Method r) "GET" then
      match storage.Get ctx commentID s with
      | (Err ErrNotFound, s) => (http_Error w "Comment not found" StatusNotFound, s)
      | (Err _, s) => (http_Error w "Internal Server Error" StatusInternalServerError, s)
      | (Ok comment, s) => (encode w StatusOK (JSONComment (toResponse comment)), s)
      end
    else if String.eqb (Method r) "PUT" then
      match decodeValid r with
      | (_, _, Some err) => (http_Error w err StatusBadRequest, s)
      | (req, problems, None) =>
          if (0 <? size problems)%nat then
            (encode w StatusBadRequest (JSONProblems problems), s)
          else
            match storage.Get ctx commentID s with
            | (Err ErrNotFound, s) => (http_Error w "Comment not found" StatusNotFound, s)
            | (Err _, s) => (http_Error w "Internal Server Error" StatusInternalServerError, s)
            | (Ok existing, s) =>
                if negb (String.eqb (storage.UserID existing) userID) then
                  (http_Error w "Forbidden" StatusForbidden, s)
                else
                  match storage.Update ctx commentID
                          (storage.mkComment "" (req_Content req) (req_Author req) zeroTime userID)
                          s with
                  | (Err _, s) =>
                      (http_Error w "Internal Server Error" StatusInternalServerError, s)
                  | (Ok comment, s) =>
                      (encode w StatusOK (JSONComment (toResponse comment)), s)
                  end
            end
      end
    else if String.eqb (Method r) "DELETE" then
      match storage.Get ctx commentID s with
      | (Err ErrNotFound, s) => (http_Error w "Comment not found" StatusNotFound, s)
      | (Err _, s) => (http_Error w "Internal Server Error" StatusInternalServerError, s)
      | (Ok existing, s) =>
          if negb (String.eqb (storage.UserID existing) userID) then
            (http_Error w "Forbidden" StatusForbidden, s)
          else
            match storage.Delete ctx commentID s with
            | (Some _, s) => (http_Error w "Internal Server Error" StatusInternalServerError, s)
            | (None, s) => (WriteHeader w StatusNoContent, s)
            end
      end
    else (http_Error w "Method Not Allowed" StatusMethodNotAllowed, s).

End api.

(** ** Goroutines calling [CommentStore.Create] on one store *)

Module concurrent.

Import storage.

(** The program points of one goroutine inside [Create]. *)
Inductive goroutine :=
  | AtLock (ctx : Context) (c : Comment)      (* before [s.mu.Lock()] *)
  | AtSelect (ctx : Context) (c : Comment)    (* lock held, before the [select] *)
  | AtGenerateID (c : Comment)                (* before [c.ID = util.GenerateID()] *)
  | AtNow (c : Comment)                       (* before [c.CreatedAt = time.Now()] *)
  | AtStore (c : Comment)                     (* before [s.comments[c.ID] = c] *)
  | AtUnlock (res : result Comment)           (* result fixed, deferred [Unlock] pending *)
  | Returned (res : result Comment).

(** The shared state: the map, whether [mu] is write-locked, how many
    identifiers the process has drawn so far, and the goroutines. *)
Record State := mkState {
  comments : gmap string Comment;
  locked : bool;
  drawn : nat;
  threads : list goroutine
}.

(** One step of one goroutine.  [ids n] is the identifier the [n]-th call
    of [util.GenerateID] returns; [time.Now()] may return any instant.
    [Lock] is enabled only while the lock is free. *)
Inductive step (ids : nat -> string) : State -> State -> Prop :=
  | step_lock m n l1 l2 ctx c :
      step ids (mkState m false n (l1 ++ AtLock ctx c :: l2))
               (mkState m true n (l1 ++ AtSelect ctx c :: l2))
  | step_select_done m b n l1 l2 ctx c e :
      ctx_done ctx = Some e ->
      step ids (mkState m b n (l1 ++ AtSelect ctx c :: l2))
               (mkState m b n (l1 ++ AtUnlock (Err e) :: l2))
  | step_select_default m b n l1 l2 ctx c :
      ctx_done ctx = None ->
      step ids (mkState m b n (l1 ++ AtSelect ctx c :: l2))
               (mkState m b n (l1 ++ AtGenerateID c :: l2))
  | step_generate m b n l1 l2 c :
      step ids (mkState m b n (l1 ++ AtGenerateID c :: l2))
               (mkState m b (S n) (l1 ++ AtNow (set_ID c (ids n)) :: l2))
  | step_now m b n l1 l2 c now :
      step ids (mkState m b n (l1 ++ AtNow c :: l2))
               (mkState m b n (l1 ++ AtStore (set_CreatedAt c now) :: l2))
  | step_store m b n l1 l2 c :
      step ids (mkState m b n (l1 ++ AtStore c :: l2))
               (mkState (<[ID c := c]> m) b n (l1 ++ AtUnlock (Ok c) :: l2))
  | step_unlock m b n l1 l2 res :
      step ids (mkState m b n (l1 ++ AtUnlock res :: l2))
               (mkState m false n (l1 ++ Returned res :: l2)).

(** Runs: zero or more steps. *)
Inductive steps (ids : nat -> string) : State -> State -> Prop :=
  | steps_refl st : steps ids st st
  | steps_step st1 st2 st3 : step ids st1 st2 -> steps ids st2 st3 -> steps ids st1 st3.

(** [N] goroutines about to call [Create] on a store holding [s0], after
    the process has drawn [k0] identifiers. *)
Definition initial (s0 : gmap string Comment) (k0 : nat) (calls : list (Context * Comment)) : State :=
  mkState s0 false k0 ((fun call => AtLock call.1 call.2) <$> calls).

Definition is_returned (t : goroutine) : bool :=
  match t with Returned _ => true | _ => false end.

(** All goroutines have returned. *)
Definition completed (st : State) : bool := forallb is_returned (threads st).

(** The goroutine holds the write lock. *)
Definition inCS (t : goroutine) : bool :=
  match t with
  | AtLock _ _ | Returned _ => false
  | _ => true
  end.

(** The record a goroutine has stored, once it has. *)
Definition stored (t : goroutine) : option Comment :=
  match t with
  | AtUnlock (Ok c) | Returned (Ok c) => Some c
  | _ => None
  end.

(** The result of a goroutine that has returned. *)
Definition returned (t : goroutine) : option (result Comment) :=
  match t with Returned res => Some res | _ => None end.

(** [Count] on the state's map, by a caller whose context is live. *)
Definition count (st : State) : Z := (Count Background (comments st)).1.1.

End concurrent.

(** * Properties *)

(** ** The store *)

Section store_facts.

Import storage.

Implicit Types (s : gmap string Comment) (ctx : Context) (c draft : Comment).

Lemma ctx_done_live ctx : ctx_err ctx = None -> ctx_done ctx = None.
Proof. unfold ctx_done. intros ->. reflexivity. Qed.

Lemma ctx_done_cancelled ctx e : ctx_err ctx = Some e -> ctx_done ctx = Some (CtxErr e).
Proof. unfold ctx_done. intros ->. reflexivity. Qed.

(** What [Update] does on a live context when the record exists. *)
Lemma Update_found ctx id draft s existing :
  ctx_err ctx = None ->
  s !! id = Some existing ->
  Update ctx id draft s =
    (Ok (mkComment (ID existing) (Content draft) (Author draft)
           (CreatedAt existing) (UserID existing)),
     <[id := mkComment (ID existing) (Content draft) (Author draft)
               (CreatedAt existing) (UserID existing)]> s).
Proof.
  intros Hctx Hs. unfold Update. rewrite (ctx_done_live _ Hctx), Hs. reflexivity.
Qed.

(** [Update] either succeeds or leaves the map as it was. *)
Lemma Update_failed ctx id draft s e s' :
  Update ctx id draft s = (Err e, s') -> s' = s.
Proof.
  unfold Update. destruct (ctx_done ctx); [congruence|].
  destruct (s !! id); congruence.
Qed.

(** C1. [Update] pins the identifier, the creation timestamp and the owner:
    whatever the draft carries in those fields, the record stored under
    [id] afterwards has them as the record stored before, and so does the
    record [Update] returns, whose content and author are the draft's.
    Records under other keys are untouched, and on a live context the
    update succeeds. *)
Theorem Update_preserves_identity ctx id draft s existing :
  s !! id = Some existing ->
  let res := (Update ctx id draft s).1 in
  let s' := (Update ctx id draft s).2 in
  (exists after, s' !! id = Some after
     /\ ID after = ID existing
     /\ CreatedAt after = CreatedAt existing
     /\ UserID after = UserID existing)
  /\ (forall r, res = Ok r ->
        s' !! id = Some r
        /\ ID r = ID existing
        /\ CreatedAt r = CreatedAt existing
        /\ UserID r = UserID existing
        /\ Content r = Content draft
        /\ Author r = Author draft)
  /\ (forall id', id' <> id -> s' !! id' = s !! id')
  /\ (ctx_err ctx = None -> exists r, res = Ok r).
Proof.
  intros Hs. cbv zeta. unfold Update.
  destruct (ctx_done ctx) as [e|] eqn:Hctx; cbn [fst snd].
  - split; [exists existing; auto|].
    split; [intros r [=]|]. split; [reflexivity|].
    intros Hlive. rewrite (ctx_done_live _ Hlive) in Hctx. discriminate.
  - rewrite Hs. cbn [fst snd].
    split; [eexists; split; [apply lookup_insert_eq|cbn; auto]|].
    split; [|split].
    + intros r [= <-]. split; [apply lookup_insert_eq|]. cbn. auto 6.
    + intros id' Hne. apply lookup_insert_ne. congruence.
    + intros _. eexists. reflexivity.
Qed.

(** The five operations the handlers call, on a cancelled context. *)
Lemma cancelled_operations_are_noops_aux ctx e s :
  ctx_err ctx = Some e ->
  (forall c id now, Create ctx c id now s = (Err (CtxErr e), s))
  /\ (forall id, Get ctx id s = (Err (CtxErr e), s))
  /\ List ctx s = (Err (CtxErr e), s)
  /\ (forall id c, Update ctx id c s = (Err (CtxErr e), s))
  /\ (forall id, Delete ctx id s = (Some (CtxErr e), s)).
Proof.
  intros Hctx. apply ctx_done_cancelled in Hctx.
  unfold Create, Get, List, Update, Delete. rewrite Hctx. repeat split.
Qed.

(** C5. With a context that is already cancelled, each of the nine store
    operations returns the context's error and leaves the map exactly as it
    was. *)
Theorem cancelled_operations_are_noops ctx e s :
  ctx_err ctx = Some e ->
  (forall c id now, Create ctx c id now s = (Err (CtxErr e), s))
  /\ (forall id, Get ctx id s = (Err (CtxErr e), s))
  /\ List ctx s = (Err (CtxErr e), s)
  /\ (forall id c, Update ctx id c s = (Err (CtxErr e), s))
  /\ (forall id, Delete ctx id s = (Some (CtxErr e), s))
  /\ (forall userID, ListByUser ctx userID s = (Err (CtxErr e), s))
  /\ (forall userID, DeleteByUser ctx userID s = (Some (CtxErr e), s))
  /\ (forall age now, DeleteOlderThan ctx age now s = (Some (CtxErr e), s))
  /\ Count ctx s = ((0, Some (CtxErr e)), s).
Proof.
  intros Hctx. apply ctx_done_cancelled in Hctx.
  unfold Create, Get, List, Update, Delete, ListByUser, DeleteByUser,
    DeleteOlderThan, Count.
  rewrite Hctx. repeat split.
Qed.

(** What [Create] does on a live context. *)
Lemma Create_live ctx c id now s :
  ctx_err ctx = None ->
  Create ctx c id now s =
    (Ok (mkComment id (Content c) (Author c) now (UserID c)),
     <[id := mkComment id (Content c) (Author c) now (UserID c)]> s).
Proof. intros Hctx. unfold Create. rewrite (ctx_done_live _ Hctx). reflexivity. Qed.

(** C8. On live contexts [Create] returns a record, and [Get] of that
    record's identifier on the resulting store returns the same record,
    field for field. *)
Theorem Get_after_Create ctx ctx' draft id now s :
  ctx_err ctx = None ->
  ctx_err ctx' = None ->
  exists r s',
    Create ctx draft id now s = (Ok r, s')
    /\ Get ctx' (ID r) s' = (Ok r, s').
Proof.
  intros Hctx Hctx'. rewrite (Create_live _ _ _ _ _ Hctx).
  eexists _, _. split; [reflexivity|].
  unfold Get. rewrite (ctx_done_live _ Hctx'). cbn [ID].
  rewrite lookup_insert_eq. reflexivity.
Qed.

End store_facts.

(** A store with one record of owner alice, and a draft that tries to take
    the record over. *)
Definition alice_record : storage.Comment :=
  storage.mkComment "c1" "first" "Alice" 1700 "alice".
Definition store1 : gmap string storage.Comment := {[ "c1" := alice_record ]}.
Definition forged_draft : storage.Comment :=
  storage.mkComment "c2" "edited" "Mallory" 9999 "mallory".
Definition cancelled : Context := mkContext (Some Canceled) [].

Lemma Update_preserves_identity_witness :
  store1 !! "c1" = Some alice_record
  /\ (storage.Update Background "c1" forged_draft store1).1
     = Ok (storage.mkComment "c1" "edited" "Mallory" 1700 "alice")
  /\ (storage.Update Background "c1" forged_draft store1).2 !! "c1"
     = Some (storage.mkComment "c1" "edited" "Mallory" 1700 "alice").
Proof.
  assert (Hs : store1 !! "c1" = Some alice_record) by reflexivity.
  split; [exact Hs|].
  destruct (Update_preserves_identity Background "c1" forged_draft store1 alice_record Hs)
    as (_ & Hres & _ & Hlive).
  destruct (Hlive eq_refl) as [r Hr].
  destruct (Hres r Hr) as (Hstored & Hid & Hat & Hown & Hcontent & Hauthor).
  rewrite Hr, Hstored. destruct r; cbn in *; subst. split; reflexivity.
Defined.

Lemma cancelled_operations_are_noops_witness :
  ctx_err cancelled = Some Canceled
  /\ storage.Delete cancelled "c1" store1 = (Some (CtxErr Canceled), store1)
  /\ storage.Create cancelled forged_draft "c2" 1800 store1 = (Err (CtxErr Canceled), store1).
Proof.
  split; [reflexivity|].
  destruct (cancelled_operations_are_noops cancelled Canceled store1 eq_refl)
    as (Hcreate & _ & _ & _ & Hdelete & _).
  split; [apply Hdelete | apply Hcreate].
Defined.

Lemma Get_after_Create_witness :
  ctx_err Background = None
  /\ exists r s',
       storage.Create Background forged_draft "c2" 1800 store1 = (Ok r, s')
       /\ storage.Get Background (storage.ID r) s' = (Ok r, s').
Proof.
  split; [reflexivity|].
  apply (Get_after_Create Background Background forged_draft "c2" 1800 store1);
    reflexivity.
Defined.

(** ** The token service *)

Section token_facts.

Import auth.

Context `{JWTLib}.

Implicit Types (m : JWTManager) (now : Time).

Lemma Before_true t u : Before t u = true <-> t < u.
Proof. unfold Before. apply bool_decide_eq_true. Qed.

Lemma Before_false t u : Before t u = false <-> u <= t.
Proof. unfold Before. rewrite bool_decide_eq_false. lia. Qed.

(** [Validate] accepts exactly when [now] lies in the window the claims
    give, a missing bound leaving that side open. *)
Lemma Validate_nil rc now :
  Validate rc now = [] <->
  (forall nbf, NotBefore rc = Some nbf -> nbf <= now)
  /\ (forall exp, ExpiresAt rc = Some exp -> now < exp).
Proof.
  unfold Validate, verifyExpiresAt, verifyNotBefore.
  destruct (ExpiresAt rc) as [exp|], (NotBefore rc) as [nbf|]; cbn.
  - destruct (Before now exp) eqn:He, (Before now nbf) eqn:Hn; cbn;
      rewrite ?Before_true, ?Before_false in *;
      (split; [try discriminate; intros _ | intros [Hn' He']]);
      try (split; intros ? [= <-]; lia); try reflexivity;
      try (specialize (Hn' _ eq_refl)); try (specialize (He' _ eq_refl)); lia.
  - destruct (Before now exp) eqn:He; cbn; rewrite ?Before_true, ?Before_false in *;
      (split; [try discriminate; intros _ | intros [Hn' He']]);
      try (split; [discriminate | intros ? [= <-]; lia]); try reflexivity;
      try (specialize (He' _ eq_refl)); lia.
  - destruct (Before now nbf) eqn:Hn; cbn; rewrite ?Before_true, ?Before_false in *;
      (split; [try discriminate; intros _ | intros [Hn' He']]);
      try (split; [intros ? [= <-]; lia | discriminate]); try reflexivity;
      try (specialize (Hn' _ eq_refl)); lia.
  - split; [intros _; split; discriminate | reflexivity].
Qed.

(** An expiry that has passed is among the claim errors. *)
Lemma Validate_expired rc now exp :
  ExpiresAt rc = Some exp -> exp <= now -> ErrTokenExpired ∈ Validate rc now.
Proof.
  intros He Hle. unfold Validate, verifyExpiresAt. rewrite He.
  apply Before_false in Hle. rewrite Hle. set_solver.
Qed.

Lemma HMACVerify_true h text sig key :
  HMACVerify h text sig key = true <-> sig = hmac h key text.
Proof. unfold HMACVerify. apply String.eqb_eq. Qed.

(** The successful runs of the parser. *)
Lemma ParseWithClaims_inl m tokenStr now token valid :
  ParseWithClaims tokenStr (keyFunc m) now = inl (token, valid) ->
  valid = true
  /\ DecodeSegments tokenStr = Some token
  /\ (exists h,
        alg (TokenHeader token) ≫= GetSigningMethod = Some (SigningMethodHMAC h)
        /\ Signature token = hmac h (secretKey m) (SigningInput token))
  /\ Validate (Registered (TokenClaims token)) now = [].
Proof.
  unfold ParseWithClaims.
  destruct (DecodeSegments tokenStr) as [tk|] eqn:Hd; [|intros [=]].
  destruct (alg (TokenHeader tk) ≫= GetSigningMethod) as [method|] eqn:Ha; [|intros [=]].
  destruct method as [h| | | | |]; cbn [keyFunc]; [|intros [=]..].
  destruct (HMACVerify h _ _ _) eqn:Hv; [|intros [=]].
  destruct (Validate _ now) eqn:Hval; [|intros [=]].
  intros [= <- <-]. apply HMACVerify_true in Hv.
  split; [reflexivity|]. split; [reflexivity|]. split; [|exact Hval].
  exists h. split; [exact Ha|exact Hv].
Qed.

(** The parser on a decodable token of the HMAC family. *)
Lemma ParseWithClaims_hmac m tokenStr now token h :
  DecodeSegments tokenStr = Some token ->
  alg (TokenHeader token) ≫= GetSigningMethod = Some (SigningMethodHMAC h) ->
  ParseWithClaims tokenStr (keyFunc m) now =
    if HMACVerify h (SigningInput token) (Signature token) (secretKey m) then
      match Validate (Registered (TokenClaims token)) now with
      | [] => inl (token, true)
      | errs => inr (ErrTokenInvalidClaims errs)
      end
    else inr ErrTokenSignatureInvalid.
Proof. intros Hd Ha. unfold ParseWithClaims. rewrite Hd, Ha. reflexivity. Qed.

(** A decodable token of the HMAC family, signed under the manager's
    secret and presented inside its window, is accepted. *)
Lemma ValidateToken_accepts m tokenStr now token h :
  DecodeSegments tokenStr = Some token ->
  alg (TokenHeader token) ≫= GetSigningMethod = Some (SigningMethodHMAC h) ->
  Signature token = hmac h (secretKey m) (SigningInput token) ->
  (forall nbf, NotBefore (Registered (TokenClaims token)) = Some nbf -> nbf <= now) ->
  (forall exp, ExpiresAt (Registered (TokenClaims token)) = Some exp -> now < exp) ->
  ValidateToken m tokenStr now = inl (TokenClaims token).
Proof.
  intros Hd Ha Hsig Hnbf Hexp. unfold ValidateToken.
  rewrite (ParseWithClaims_hmac _ _ _ _ _ Hd Ha).
  apply HMACVerify_true in Hsig. rewrite Hsig.
  assert (Hval : Validate (Registered (TokenClaims token)) now = [])
    by (apply Validate_nil; auto).
  rewrite Hval. reflexivity.
Qed.

(** C3. [ValidateToken] returns claims only for a token whose algorithm is
    of the HMAC family, whose signature is the MAC of its signing input
    under the manager's secret, and at a time inside the window its claims
    give (not before [nbf], before [exp]).  A token of the HMAC family
    signed under the manager's secret whose expiry has passed fails with
    the expiry error among the claim errors; a token of the HMAC family
    whose signature is the MAC under another secret, and differs from the
    MAC under the manager's, fails with the signature error. *)
Theorem ValidateToken_checks m tokenStr now :
  (forall claims,
     ValidateToken m tokenStr now = inl claims ->
     exists token h,
       DecodeSegments tokenStr = Some token
       /\ TokenClaims token = claims
       /\ alg (TokenHeader token) ≫= GetSigningMethod = Some (SigningMethodHMAC h)
       /\ Signature token = hmac h (secretKey m) (SigningInput token)
       /\ (forall nbf, NotBefore (Registered claims) = Some nbf -> nbf <= now)
       /\ (forall exp, ExpiresAt (Registered claims) = Some exp -> now < exp))
  /\ (forall token h exp,
        DecodeSegments tokenStr = Some token ->
        alg (TokenHeader token) ≫= GetSigningMethod = Some (SigningMethodHMAC h) ->
        Signature token = hmac h (secretKey m) (SigningInput token) ->
        ExpiresAt (Registered (TokenClaims token)) = Some exp ->
        exp <= now ->
        exists errs,
          ValidateToken m tokenStr now = inr (InvalidToken (ErrTokenInvalidClaims errs))
          /\ ErrTokenExpired ∈ errs)
  /\ (forall token h otherSecret,
        DecodeSegments tokenStr = Some token ->
        alg (TokenHeader token) ≫= GetSigningMethod = Some (SigningMethodHMAC h) ->
        Signature token = hmac h otherSecret (SigningInput token) ->
        hmac h otherSecret (SigningInput token)
          <> hmac h (secretKey m) (SigningInput token) ->
        ValidateToken m tokenStr now = inr (InvalidToken ErrTokenSignatureInvalid)).
Proof.
  split; [|split].
  - intros claims. unfold ValidateToken.
    destruct (ParseWithClaims tokenStr (keyFunc m) now) as [[token valid]|err] eqn:Hp;
      [|discriminate].
    destruct (ParseWithClaims_inl _ _ _ _ _ Hp) as (-> & Hd & (h & Ha & Hsig) & Hval).
    cbn. intros [= <-]. apply Validate_nil in Hval as [Hnbf Hexp].
    exists token, h. auto 10.
  - intros token h exp Hd Ha Hsig Hexp Hle. unfold ValidateToken.
    rewrite (ParseWithClaims_hmac _ _ _ _ _ Hd Ha).
    apply HMACVerify_true in Hsig. rewrite Hsig.
    pose proof (Validate_expired _ _ _ Hexp Hle) as Hin.
    destruct (Validate _ now) as [|e errs]; [set_solver|].
    eexists. split; [reflexivity|exact Hin].
  - intros token h otherSecret Hd Ha Hsig Hne. unfold ValidateToken.
    rewrite (ParseWithClaims_hmac _ _ _ _ _ Hd Ha).
    destruct (HMACVerify h _ _ _) eqn:Hv; [|reflexivity].
    apply HMACVerify_true in Hv. congruence.
Qed.

Lemma Truncate_le t : Truncate t Second <= t.
Proof.
  unfold Truncate, Second.
  pose proof (Z.mod_pos_bound t 1000000000 ltac:(lia)). lia.
Qed.

Lemma Truncate_gt t : t - Second < Truncate t Second.
Proof.
  unfold Truncate, Second.
  pose proof (Z.mod_pos_bound t 1000000000 ltac:(lia)). lia.
Qed.

(** Under the 24-hour policy every instant up to one second short of a
    day after the first clock reading is before the token's expiry. *)
Lemma day_window m t_exp now :
  expiry m = 24 * Hour -> now <= t_exp + 24 * Hour - Second ->
  now < NewNumericDate (t_exp + expiry m).
Proof.
  intros -> Hle. unfold NewNumericDate.
  pose proof (Truncate_gt (t_exp + 24 * Hour)). lia.
Qed.

(** C4. A token issued for a subject and a role validates under the same
    manager at any time inside its validity window, that is from the
    clock reading taken for not-before up to the token's expiry, and the
    claims returned carry that subject and that role. *)
Theorem GenerateToken_validates m userID role t_exp t_iat t_nbf now :
  t_nbf <= now ->
  now < NewNumericDate (t_exp + expiry m) ->
  exists claims,
    ValidateToken m (GenerateToken m userID role t_exp t_iat t_nbf) now = inl claims
    /\ UserID claims = userID
    /\ Role claims = role.
Proof.
  intros Hnbf Hexp. unfold GenerateToken. eexists. split.
  - eapply (ValidateToken_accepts m _ now _ SHA256).
    + apply DecodeSegments_Compact.
    + reflexivity.
    + reflexivity.
    + cbn [TokenClaims Registered NotBefore]. intros nbf [= <-].
      unfold NewNumericDate. pose proof (Truncate_le t_nbf). lia.
    + cbn [TokenClaims Registered ExpiresAt]. intros exp [= <-]. exact Hexp.
  - split; reflexivity.
Qed.

End token_facts.

(** *** An instance of the library interface

    A small codec with the round-trip law, used to run the token service
    on concrete inputs: values are numbered through [Countable] and the
    number is written in binary. *)

Fixpoint bits_of_pos (p : positive) : string :=
  match p with
  | xH => ""
  | xO p => String "0" (bits_of_pos p)
  | xI p => String "1" (bits_of_pos p)
  end.

Fixpoint pos_of_bits (s : string) : option positive :=
  match s with
  | EmptyString => Some xH
  | String c s =>
      match pos_of_bits s with
      | None => None
      | Some p =>
          if Ascii.eqb c "0" then Some (xO p)
          else if Ascii.eqb c "1" then Some (xI p)
          else None
      end
  end.

Lemma pos_of_bits_of_pos p : pos_of_bits (bits_of_pos p) = Some p.
Proof. induction p as [p IH|p IH|]; cbn; rewrite ?IH; reflexivity. Qed.

Definition pack {A} `{Countable A} (a : A) : string := bits_of_pos (encode a).

Definition unpack {A} `{Countable A} (s : string) : option A :=
  match pos_of_bits s with
  | None => None
  | Some p => decode p
  end.

Lemma unpack_pack {A} `{Countable A} (a : A) : unpack (pack a) = Some a.
Proof. unfold unpack, pack. rewrite pos_of_bits_of_pos. apply decode_encode. Qed.

Definition wire_fields : Type :=
  (string * option string)
  * (string * string)
  * (string * string * list string)
  * (option Z * option Z * option Z)
  * string.

Definition fields_of (hd : auth.Header) (c : auth.Claims) : wire_fields :=
  let rc := auth.Registered c in
  ((auth.typ hd, auth.alg hd),
   (auth.UserID c, auth.Role c),
   (auth.Issuer rc, auth.Subject rc, auth.Audience rc),
   (auth.ExpiresAt rc, auth.NotBefore rc, auth.IssuedAt rc),
   auth.JTI rc).

Definition of_fields (f : wire_fields) : auth.Header * auth.Claims :=
  let '((ty, al), (uid, role), (iss, sub, aud), (exp, nbf, iat), jti) := f in
  (auth.mkHeader ty al,
   auth.mkClaims uid role (auth.mkRegisteredClaims iss sub aud exp nbf iat jti)).

Lemma of_fields_of hd c : of_fields (fields_of hd c) = (hd, c).
Proof. destruct hd, c as [? ? []]. reflexivity. Qed.

Definition toy_SigningString (hd : auth.Header) (c : auth.Claims) : string :=
  pack (fields_of hd c).

Definition toy_Compact (text sig : string) : string := pack (text, sig).

Definition toy_DecodeSegments (s : string) : option auth.Token :=
  match unpack (A := string * string) s with
  | None => None
  | Some (text, sig) =>
      match unpack (A := wire_fields) text with
      | None => None
      | Some f => Some (auth.mkToken (of_fields f).1 (of_fields f).2 text sig)
      end
  end.

Definition toy_hmac (h : auth.HMACHash) (key text : string) : string :=
  auth.Alg (auth.SigningMethodHMAC h) ++ ":" ++ key ++ ":" ++ text.

Lemma toy_DecodeSegments_Compact hd c sig :
  toy_DecodeSegments (toy_Compact (toy_SigningString hd c) sig)
  = Some (auth.mkToken hd c (toy_SigningString hd c) sig).
Proof.
  unfold toy_DecodeSegments, toy_Compact. rewrite unpack_pack.
  unfold toy_SigningString at 1. rewrite unpack_pack, of_fields_of. reflexivity.
Qed.

Definition toy_jwt : auth.JWTLib :=
  {| auth.hmac := toy_hmac;
     auth.SigningString := toy_SigningString;
     auth.Compact := toy_Compact;
     auth.DecodeSegments := toy_DecodeSegments;
     auth.DecodeSegments_Compact := toy_DecodeSegments_Compact |}.

(** The manager of the server under the test secret, a token it issued at
    second 100, and the same token as another secret would have signed
    it. *)
Definition server_manager : auth.JWTManager :=
  auth.NewJWTManager "test-secret" (24 * auth.Hour).

Definition issue_time : Time := 100 * auth.Second + 7.

Definition test_header : auth.Header := auth.mkHeader "JWT" (Some "HS256").

Definition test_claims : auth.Claims :=
  auth.mkClaims "test" "user"
    (auth.mkRegisteredClaims "" "" []
       (Some (100 * auth.Second + 24 * auth.Hour))
       (Some (100 * auth.Second)) (Some (100 * auth.Second)) "").

Definition test_token : string :=
  @auth.GenerateToken toy_jwt server_manager "test" "user" issue_time issue_time issue_time.

Definition foreign_token : string :=
  toy_Compact (toy_SigningString test_header test_claims)
    (toy_hmac auth.SHA256 "other-secret" (toy_SigningString test_header test_claims)).

Lemma test_token_eq :
  test_token =
  toy_Compact (toy_SigningString test_header test_claims)
    (toy_hmac auth.SHA256 "test-secret" (toy_SigningString test_header test_claims)).
Proof. reflexivity. Qed.

Lemma toy_hmac_other_secret text :
  toy_hmac auth.SHA256 "other-secret" text <> toy_hmac auth.SHA256 "test-secret" text.
Proof. unfold toy_hmac. cbn. intros [=]. Qed.

Lemma ValidateToken_checks_witness :
  (exists claims,
     @auth.ValidateToken toy_jwt server_manager test_token (issue_time + 5) = inl claims
     /\ (forall exp, auth.ExpiresAt (auth.Registered claims) = Some exp ->
           issue_time + 5 < exp))
  /\ (exists errs,
        @auth.ValidateToken toy_jwt server_manager test_token (issue_time + 25 * auth.Hour)
        = inr (auth.InvalidToken (auth.ErrTokenInvalidClaims errs))
        /\ auth.ErrTokenExpired ∈ errs)
  /\ @auth.ValidateToken toy_jwt server_manager foreign_token (issue_time + 5)
     = inr (auth.InvalidToken auth.ErrTokenSignatureInvalid).
Proof.
  pose (text := toy_SigningString test_header test_claims).
  assert (Hd : forall sig,
    toy_DecodeSegments (toy_Compact text sig) = Some (auth.mkToken test_header test_claims text sig))
    by (intros sig; apply toy_DecodeSegments_Compact).
  split; [|split].
  - assert (Hv : @auth.ValidateToken toy_jwt server_manager test_token (issue_time + 5)
                 = inl test_claims).
    { apply (@ValidateToken_accepts toy_jwt server_manager test_token (issue_time + 5)
               (auth.mkToken test_header test_claims text
                  (toy_hmac auth.SHA256 "test-secret" text)) auth.SHA256).
      - apply Hd.
      - reflexivity.
      - reflexivity.
      - intros nbf [= <-]. vm_compute. discriminate.
      - intros exp [= <-]. vm_compute. reflexivity. }
    set (claims := test_claims) in *.
    exists claims. split; [exact Hv|].
    destruct (@ValidateToken_checks toy_jwt server_manager test_token (issue_time + 5))
      as (Hsound & _ & _).
    destruct (Hsound claims Hv) as (_ & _ & _ & _ & _ & _ & _ & Hexp). exact Hexp.
  - destruct (@ValidateToken_checks toy_jwt server_manager test_token
                (issue_time + 25 * auth.Hour)) as (_ & Hexpired & _).
    apply (Hexpired (auth.mkToken test_header test_claims text
                       (toy_hmac auth.SHA256 "test-secret" text))
             auth.SHA256 (100 * auth.Second + 24 * auth.Hour)).
    + apply Hd.
    + reflexivity.
    + reflexivity.
    + reflexivity.
    + vm_compute. discriminate.
  - destruct (@ValidateToken_checks toy_jwt server_manager foreign_token (issue_time + 5))
      as (_ & _ & Hforeign).
    apply (Hforeign (auth.mkToken test_header test_claims text
                       (toy_hmac auth.SHA256 "other-secret" text))
             auth.SHA256 "other-secret").
    + apply Hd.
    + reflexivity.
    + reflexivity.
    + apply toy_hmac_other_secret.
Defined.

Lemma GenerateToken_validates_witness :
  issue_time <= issue_time + 5
  /\ issue_time + 5 < auth.NewNumericDate (issue_time + auth.expiry server_manager)
  /\ exists claims,
       @auth.ValidateToken toy_jwt server_manager test_token (issue_time + 5) = inl claims
       /\ auth.UserID claims = "test"
       /\ auth.Role claims = "user".
Proof.
  assert (H1 : issue_time <= issue_time + 5) by (vm_compute; discriminate).
  assert (H2 : issue_time + 5 < auth.NewNumericDate (issue_time + auth.expiry server_manager))
    by (vm_compute; reflexivity).
  split; [exact H1|]. split; [exact H2|].
  exact (@GenerateToken_validates toy_jwt server_manager "test" "user"
           issue_time issue_time issue_time (issue_time + 5) H1 H2).
Defined.

(** ** The authorization gate *)

Section gate_facts.

Import api.

Context `{auth.JWTLib}.

Implicit Types (r : Request) (w : ResponseWriter) (s : gmap string storage.Comment)
  (env : Env) (next mux : Handler).

(** The claims of the request's bearer token, if it carries a valid one:
    the [Authorization] header starts with ["Bearer "] and the rest
    validates under the server's secret. *)
Definition bearer_claims (jwtSecret : string) (env : Env) (r : Request) : option auth.Claims :=
  let authHeader := Header_Get r "Authorization" in
  if HasPrefix authHeader "Bearer " then
    match auth.ValidateToken (auth.NewJWTManager jwtSecret (24 * auth.Hour))
            (TrimPrefix authHeader "Bearer ") (env_auth_now env) with
    | inl claims => Some claims
    | inr _ => None
    end
  else None.

Lemma isPublicPath_spec path :
  isPublicPath path = true <-> path = "/healthz" \/ path = "/api/v1/login".
Proof.
  unfold isPublicPath. rewrite orb_true_iff, !String.eqb_eq. reflexivity.
Qed.

Lemma Status_http_Error w msg code :
  Status w = 0 -> Status (http_Error w msg code) = code.
Proof. intros Hw. unfold http_Error, WriteHeader. cbn. rewrite Hw. reflexivity. Qed.

(** The text of the gate's refusal. *)
Definition refusal (r : Request) : string :=
  if HasPrefix (Header_Get r "Authorization") "Bearer " then "Invalid token"
  else "Unauthorized".

(** Without a valid bearer token the gate answers a non-public path by
    itself: 401, the store as it was, [next] not consulted. *)
Lemma newAuthMiddleware_rejects jwtSecret next env w r s :
  isPublicPath (Path r) = false ->
  bearer_claims jwtSecret env r = None ->
  newAuthMiddleware jwtSecret next env w r s
  = (http_Error w (refusal r) StatusUnauthorized, s).
Proof.
  intros Hpath Hbearer. unfold newAuthMiddleware, bearer_claims, refusal in *.
  rewrite Hpath.
  destruct (HasPrefix (Header_Get r "Authorization") "Bearer "); cbn [negb].
  - destruct (auth.ValidateToken _ _ _); [discriminate|]. reflexivity.
  - reflexivity.
Qed.

(** With a valid bearer token the gate hands the request on, the claims'
    subject and role attached to its context. *)
Lemma newAuthMiddleware_accepts jwtSecret next env w r s claims :
  isPublicPath (Path r) = false ->
  bearer_claims jwtSecret env r = Some claims ->
  newAuthMiddleware jwtSecret next env w r s
  = next env w
      (WithContext r
         (WithValue (WithValue (ReqContext r) UserIDKey (auth.UserID claims))
            UserRoleKey (auth.Role claims)))
      s.
Proof.
  intros Hpath Hbearer. unfold newAuthMiddleware, bearer_claims in *.
  rewrite Hpath.
  destruct (HasPrefix (Header_Get r "Authorization") "Bearer "); [|discriminate].
  cbn [negb]. destruct (auth.ValidateToken _ _ _); [|discriminate].
  injection Hbearer as ->. reflexivity.
Qed.

(** The identity the handlers read is the one the gate attached, also
    after the logging middleware has added its request identifier. *)
Lemma UserIDFromContext_gate ctx uid role rid :
  UserIDFromContext
    (WithValue (WithValue (WithValue ctx UserIDKey uid) UserRoleKey role)
       (StringKey "request_id") rid) = uid.
Proof. reflexivity. Qed.

(** C10. The gate's bypass is decided by equality of the path with one of
    two strings: a path is public exactly when it is "/healthz" or
    "/api/v1/login".  A public path reaches the next handler without any
    look at the token; every other path, "/healthz/" and "/api/v1/login/"
    among them, is answered with 401 unless the request carries a valid
    bearer token. *)
Theorem public_paths_are_exact jwtSecret next env w r s :
  (isPublicPath (Path r) = true <-> Path r = "/healthz" \/ Path r = "/api/v1/login")
  /\ isPublicPath "/healthz/" = false
  /\ isPublicPath "/api/v1/login/" = false
  /\ (Path r = "/healthz" \/ Path r = "/api/v1/login" ->
      newAuthMiddleware jwtSecret next env w r s = next env w r s)
  /\ (Path r <> "/healthz" -> Path r <> "/api/v1/login" ->
      bearer_claims jwtSecret env r = None ->
      Status w = 0 ->
      Status (newAuthMiddleware jwtSecret next env w r s).1 = StatusUnauthorized
      /\ (newAuthMiddleware jwtSecret next env w r s).2 = s).
Proof.
  split; [apply isPublicPath_spec|].
  split; [reflexivity|]. split; [reflexivity|]. split.
  - intros Hpub. apply isPublicPath_spec in Hpub.
    unfold newAuthMiddleware. rewrite Hpub. reflexivity.
  - intros Hh Hl Hbearer Hw.
    assert (Hpath : isPublicPath (Path r) = false).
    { destruct (isPublicPath (Path r)) eqn:E; [|reflexivity].
      apply isPublicPath_spec in E as [E|E]; contradiction. }
    rewrite (newAuthMiddleware_rejects jwtSecret next env w r s Hpath Hbearer).
    cbn [fst snd]. split; [|reflexivity]. apply Status_http_Error, Hw.
Qed.

(** C2, as the code has it.  For a request to a non-public path without a
    valid bearer token the server never runs the router: the reply and the
    store are the same whatever the router is and whatever the body of the
    request is, and the store is unchanged.
    The status is 401, except for the method OPTIONS, which the CORS
    middleware answers with 200 before the gate is reached. *)
Theorem unauthenticated_requests_stop_at_the_gate jwtSecret mux env w r s :
  isPublicPath (Path r) = false ->
  bearer_claims jwtSecret env r = None ->
  Status w = 0 ->
  (forall mux', NewServer jwtSecret mux env w r s = NewServer jwtSecret mux' env w r s)
  /\ (forall body,
        NewServer jwtSecret mux env w
          (mkRequest (Method r) (Path r) (Header r) body (ReqContext r)) s
        = NewServer jwtSecret mux env w r s)
  /\ (NewServer jwtSecret mux env w r s).2 = s
  /\ (Method r <> "OPTIONS" ->
      Status (NewServer jwtSecret mux env w r s).1 = StatusUnauthorized)
  /\ (Method r = "OPTIONS" ->
      Status (NewServer jwtSecret mux env w r s).1 = StatusOK).
Proof.
  intros Hpath Hbearer Hw.
  assert (Hbody : forall body,
    NewServer jwtSecret mux env w
      (mkRequest (Method r) (Path r) (Header r) body (ReqContext r)) s
    = NewServer jwtSecret mux env w r s).
  { intros body. unfold NewServer, newCORSMiddleware. cbn [Method].
    destruct (String.eqb (Method r) "OPTIONS"); [reflexivity|].
    rewrite !newAuthMiddleware_rejects by assumption. reflexivity. }
  unfold NewServer, newCORSMiddleware in *.
  set (w' := Header_Set (Header_Set (Header_Set w _ _) _ _) _ _) in *.
  assert (Hw' : Status w' = 0) by exact Hw.
  destruct (String.eqb (Method r) "OPTIONS") eqn:Hm.
  - apply String.eqb_eq in Hm.
    split; [reflexivity|]. split; [exact Hbody|]. split; [reflexivity|].
    split; [intros Hne; contradiction|].
    intros _. cbn [fst]. unfold WriteHeader. rewrite Hw'. reflexivity.
  - apply String.eqb_neq in Hm.
    rewrite !(newAuthMiddleware_rejects jwtSecret _ env w' r s Hpath Hbearer) in *.
    split; [|split; [exact Hbody|split; [|split]]].
    + intros mux'.
      rewrite (newAuthMiddleware_rejects jwtSecret _ env w' r s Hpath Hbearer).
      reflexivity.
    + reflexivity.
    + intros _. cbn [fst]. apply Status_http_Error, Hw'.
    + intros Hopt. contradiction.
Qed.

End gate_facts.

(** Requests without an [Authorization] header, served on a fresh response
    writer by the server under the test secret. *)
Definition env0 : api.Env := api.mkEnv (issue_time + 5) "c2" 1800 "1800".

Definition anonymous (method path : string) : api.Request :=
  api.mkRequest method path ∅ (api.BodyJSON "hello" "Bob") Background.

Definition test_server : api.Handler :=
  @api.NewServer toy_jwt "test-secret" (@api.handleComments api.ascii_strings).

Lemma unauthenticated_requests_stop_at_the_gate_witness :
  api.isPublicPath "/api/v1/comments" = false
  /\ @bearer_claims toy_jwt "test-secret" env0 (anonymous "POST" "/api/v1/comments") = None
  /\ api.Status (test_server env0 api.newResponseWriter
                   (anonymous "POST" "/api/v1/comments") store1).1 = 401
  /\ (test_server env0 api.newResponseWriter
        (anonymous "POST" "/api/v1/comments") store1).2 = store1.
Proof.
  assert (Hpath : api.isPublicPath (api.Path (anonymous "POST" "/api/v1/comments")) = false)
    by reflexivity.
  assert (Hb : @bearer_claims toy_jwt "test-secret" env0
                 (anonymous "POST" "/api/v1/comments") = None) by reflexivity.
  split; [exact Hpath|]. split; [exact Hb|].
  destruct (@unauthenticated_requests_stop_at_the_gate toy_jwt "test-secret"
              (@api.handleComments api.ascii_strings) env0 api.newResponseWriter
              (anonymous "POST" "/api/v1/comments") store1 Hpath Hb eq_refl)
    as (_ & _ & Hstore & Hstatus & _).
  split; [apply Hstatus; discriminate | exact Hstore].
Defined.

(** C2 as stated fails for the method OPTIONS: a request to a non-public
    path without any token is answered with 200, not 401. *)
Lemma OPTIONS_without_token_is_not_401 :
  api.isPublicPath "/api/v1/comments" = false
  /\ @bearer_claims toy_jwt "test-secret" env0 (anonymous "OPTIONS" "/api/v1/comments") = None
  /\ api.Status (test_server env0 api.newResponseWriter
                   (anonymous "OPTIONS" "/api/v1/comments") store1).1 = 200
  /\ api.Status (test_server env0 api.newResponseWriter
                   (anonymous "OPTIONS" "/api/v1/comments") store1).1
     <> api.StatusUnauthorized.
Proof. repeat split. vm_compute. discriminate. Qed.

Lemma public_paths_are_exact_witness :
  api.Path (anonymous "GET" "/healthz/") <> "/healthz"
  /\ api.Path (anonymous "GET" "/healthz/") <> "/api/v1/login"
  /\ api.Status
       (@api.newAuthMiddleware toy_jwt "test-secret" (@api.handleComments api.ascii_strings)
          env0 api.newResponseWriter (anonymous "GET" "/healthz/") store1).1
     = api.StatusUnauthorized.
Proof.
  assert (H1 : api.Path (anonymous "GET" "/healthz/") <> "/healthz") by discriminate.
  assert (H2 : api.Path (anonymous "GET" "/healthz/") <> "/api/v1/login") by discriminate.
  split; [exact H1|]. split; [exact H2|].
  destruct (@public_paths_are_exact toy_jwt "test-secret"
              (@api.handleComments api.ascii_strings) env0 api.newResponseWriter
              (anonymous "GET" "/healthz/") store1) as (_ & _ & _ & _ & Hreject).
  apply (Hreject H1 H2 eq_refl eq_refl).
Defined.

(** ** The comment handlers *)

Section handler_facts.

Import api.

Context `{GoStrings}.

Implicit Types (r : Request) (w : ResponseWriter) (s : gmap string storage.Comment)
  (env : Env).

Lemma HasPrefix_app (p t : string) : HasPrefix (p ++ t) p = true.
Proof.
  induction p as [|c p IH]; [reflexivity|].
  change (String c p ++ t) with (String c (p ++ t)). cbn -[Ascii.eqb].
  rewrite Ascii.eqb_refl. exact IH.
Qed.

Lemma drop_bytes_app (p t : string) : drop_bytes (String.length p) (p ++ t) = t.
Proof.
  induction p as [|c p IH]; [reflexivity|].
  change (String c p ++ t) with (String c (p ++ t)). exact IH.
Qed.

Lemma TrimPrefix_app (p t : string) : TrimPrefix (p ++ t) p = t.
Proof. unfold TrimPrefix. rewrite HasPrefix_app. apply drop_bytes_app. Qed.

Lemma size_pos_nonempty (m : gmap string string) :
  (0 <? size m)%nat = true <-> m <> ∅.
Proof.
  rewrite Nat.ltb_lt. split.
  - intros Hlt ->. rewrite map_size_empty in Hlt. lia.
  - intros Hne. destruct (size m) eqn:E; [|lia].
    apply map_size_empty_iff in E. contradiction.
Qed.

(** [decodeValid] on a body that decodes and has problems: the error is
    set along with the problems. *)
Lemma decodeValid_problems r content author :
  ReqBody r = BodyJSON content author ->
  Valid (mkCreateCommentRequest content author) <> ∅ ->
  decodeValid r =
    (mkCreateCommentRequest content author,
     Valid (mkCreateCommentRequest content author),
     Some ("invalid api.createCommentRequest: "
           ++ format_d (size (Valid (mkCreateCommentRequest content author)))
           ++ " problems")).
Proof.
  intros Hb Hp. unfold decodeValid. rewrite Hb.
  apply size_pos_nonempty in Hp. rewrite Hp. reflexivity.
Qed.

Lemma decodeValid_ok r content author :
  ReqBody r = BodyJSON content author ->
  Valid (mkCreateCommentRequest content author) = ∅ ->
  decodeValid r = (mkCreateCommentRequest content author, ∅, None).
Proof.
  intros Hb Hp. unfold decodeValid. rewrite Hb, Hp. reflexivity.
Qed.

(** Whenever [decodeValid] reports no error it reports no problems. *)
Lemma decodeValid_no_error r v problems :
  decodeValid r = (v, problems, None) -> problems = ∅.
Proof.
  unfold decodeValid. destruct (ReqBody r); [discriminate|].
  destruct (0 <? size _)%nat; [discriminate|]. congruence.
Qed.

(** [Valid] finds nothing exactly when the three checks pass. *)
Lemma Valid_empty v :
  Valid v = ∅ <->
  TrimSpace (req_Content v) <> "" /\ len (req_Content v) <= 1000
  /\ TrimSpace (req_Author v) <> "".
Proof.
  unfold Valid.
  destruct (String.eqb_spec (TrimSpace (req_Content v)) "") as [Hc|Hc];
    destruct (Z.ltb_spec 1000 (len (req_Content v))) as [Hl|Hl];
    destruct (String.eqb_spec (TrimSpace (req_Author v)) "") as [Ha|Ha];
    (split; [intros Hm | intros (Hc' & Hl' & Ha')]);
    try (exfalso; apply insert_non_empty in Hm; exact Hm);
    try contradiction; try lia; try reflexivity.
  auto.
Qed.

(** An empty content is reported under the key ["content"] unless the
    length check overwrites it, which it cannot for an empty string. *)
Lemma Valid_empty_content author :
  TrimSpace "" = "" ->
  Valid (mkCreateCommentRequest "" author) !! "content" = Some "content is required".
Proof.
  intros Ht. unfold Valid. cbn [req_Content req_Author]. rewrite Ht. cbn.
  destruct (String.eqb (TrimSpace author) ""); [|reflexivity].
  rewrite lookup_insert_ne by discriminate. reflexivity.
Qed.

(** The store is only changed by [handleComments] when it replies 201. *)
Lemma handleComments_store env w r s :
  Status w = 0 ->
  Status (handleComments env w r s).1 <> StatusCreated ->
  (handleComments env w r s).2 = s.
Proof.
  intros Hw. unfold handleComments.
  destruct (String.eqb (Method r) "GET").
  - unfold storage.List. destruct (storage.ctx_done _); reflexivity.
  - destruct (String.eqb (Method r) "POST"); [|reflexivity].
    destruct (decodeValid r) as [[v problems] [err|]]; [reflexivity|].
    destruct (0 <? size problems)%nat; [reflexivity|].
    unfold storage.Create. destruct (storage.ctx_done _); [reflexivity|].
    cbn [fst snd]. unfold encode, WriteHeader. cbn. rewrite Hw. cbn. congruence.
Qed.

(** A reply 201 from [handleComments] means a POST whose body decoded to a
    content that is not blank and at most 1000 bytes long and to an author
    that is not blank. *)
Lemma handleComments_created env w r s :
  Status w = 0 ->
  Status (handleComments env w r s).1 = StatusCreated ->
  exists content author,
    ReqBody r = BodyJSON content author
    /\ TrimSpace content <> "" /\ len content <= 1000 /\ TrimSpace author <> "".
Proof.
  intros Hw. unfold handleComments.
  destruct (String.eqb (Method r) "GET").
  { unfold storage.List. destruct (storage.ctx_done _); cbn;
      unfold WriteHeader; cbn; rewrite Hw; cbn; discriminate. }
  destruct (String.eqb (Method r) "POST");
    [|cbn; unfold WriteHeader; cbn; rewrite Hw; cbn; discriminate].
  unfold decodeValid. destruct (ReqBody r) as [msg|content author];
    [cbn; unfold WriteHeader; cbn; rewrite Hw; cbn; discriminate|].
  destruct (0 <? size (Valid _))%nat eqn:Hsz;
    [cbn; unfold WriteHeader; cbn; rewrite Hw; cbn; discriminate|].
  intros _. exists content, author. split; [reflexivity|].
  apply (Valid_empty (mkCreateCommentRequest content author)).
  destruct (decide (Valid (mkCreateCommentRequest content author) = ∅)) as [E|E];
    [exact E|].
  apply size_pos_nonempty in E. congruence.
Qed.

(** C7. What the POST branch of [handleComments] does with a body that
    decodes but has validation problems: it replies 400 and adds no
    record, but the body of the reply is the plain text of the error
    [decodeValid] returned, not the map of problems. *)
Theorem POST_with_problems_reply env w r s content author :
  Method r = "POST" ->
  ReqBody r = BodyJSON content author ->
  Valid (mkCreateCommentRequest content author) <> ∅ ->
  handleComments env w r s =
    (http_Error w
       ("invalid api.createCommentRequest: "
        ++ format_d (size (Valid (mkCreateCommentRequest content author)))
        ++ " problems")
       StatusBadRequest,
     s).
Proof.
  intros Hm Hb Hp. unfold handleComments. rewrite Hm. cbn [String.eqb Ascii.eqb].
  replace (String.eqb "POST" "GET") with false by reflexivity.
  replace (String.eqb "POST" "POST") with true by reflexivity.
  rewrite (decodeValid_problems _ _ _ Hb Hp). reflexivity.
Qed.

Lemma Get_found ctx id s existing :
  ctx_err ctx = None -> s !! id = Some existing ->
  storage.Get ctx id s = (Ok existing, s).
Proof.
  intros Hctx Hs. unfold storage.Get, storage.ctx_done. rewrite Hctx, Hs. reflexivity.
Qed.

(** What [Get] returns for a stored record: the record, or the context's
    error. *)
Lemma Get_present ctx id s existing :
  s !! id = Some existing ->
  storage.Get ctx id s = (Ok existing, s)
  \/ exists e, storage.Get ctx id s = (Err (CtxErr e), s).
Proof.
  intros Hs. unfold storage.Get, storage.ctx_done.
  destruct (ctx_err ctx) as [e|]; cbn; [right; eauto|]. rewrite Hs. left. reflexivity.
Qed.

(** C6, as the code has it.  For a stored record whose owner is not the
    requester, no request to [handleComment] for that record changes the
    store.  On a live context the reply is 403, which is neither 401 nor
    404, for DELETE and for a PUT whose body decodes and passes
    validation; the body of a PUT is decoded and validated before the
    owner is looked at. *)
Theorem non_owner_is_forbidden env w r s id existing :
  s !! id = Some existing ->
  id <> "" ->
  Path r = "/api/v1/comments/" ++ id ->
  storage.UserID existing <> UserIDFromContext (ReqContext r) ->
  (handleComment env w r s).2 = s
  /\ (Status w = 0 ->
      ctx_err (ReqContext r) = None ->
      Method r = "DELETE"
      \/ (Method r = "PUT"
          /\ exists content author,
               ReqBody r = BodyJSON content author
               /\ Valid (mkCreateCommentRequest content author) = ∅) ->
      Status (handleComment env w r s).1 = StatusForbidden)
  /\ StatusForbidden <> StatusUnauthorized
  /\ StatusForbidden <> StatusNotFound.
Proof.
  intros Hs Hid Hpath Hown.
  assert (Hne : String.eqb (storage.UserID existing) (UserIDFromContext (ReqContext r)) = false)
    by (apply String.eqb_neq; exact Hown).
  assert (Hidb : String.eqb id "" = false) by (apply String.eqb_neq; exact Hid).
  split; [|split; [|split; discriminate]].
  - unfold handleComment. rewrite Hpath, TrimPrefix_app, Hidb.
    destruct (String.eqb (Method r) "GET").
    { destruct (Get_present (ReqContext r) id s existing Hs) as [->|[e ->]]; reflexivity. }
    destruct (String.eqb (Method r) "PUT").
    { destruct (decodeValid r) as [[v problems] [err|]]; [reflexivity|].
      destruct (0 <? size problems)%nat; [reflexivity|].
      destruct (Get_present (ReqContext r) id s existing Hs) as [->|[e ->]];
        [rewrite Hne|]; reflexivity. }
    destruct (String.eqb (Method r) "DELETE"); [|reflexivity].
    destruct (Get_present (ReqContext r) id s existing Hs) as [->|[e ->]];
      [rewrite Hne|]; reflexivity.
  - intros Hw Hctx Hreq. unfold handleComment. rewrite Hpath, TrimPrefix_app, Hidb.
    destruct Hreq as [Hm|(Hm & content & author & Hb & Hv)]; rewrite Hm.
    + replace (String.eqb "DELETE" "GET") with false by reflexivity.
      replace (String.eqb "DELETE" "PUT") with false by reflexivity.
      replace (String.eqb "DELETE" "DELETE") with true by reflexivity.
      rewrite (Get_found _ _ _ _ Hctx Hs), Hne. cbn [negb fst].
      apply Status_http_Error, Hw.
    + replace (String.eqb "PUT" "GET") with false by reflexivity.
      replace (String.eqb "PUT" "PUT") with true by reflexivity.
      rewrite (decodeValid_ok _ _ _ Hb Hv).
      replace (0 <? size (∅ : gmap string string))%nat with false by reflexivity.
      rewrite (Get_found _ _ _ _ Hctx Hs), Hne. cbn [negb fst].
      apply Status_http_Error, Hw.
Qed.

End handler_facts.

(** Requests that passed the gate: the context carries the subject and
    the role of the token. *)
Definition ctx_of (userID : string) : Context :=
  WithValue (WithValue Background api.UserIDKey userID) api.UserRoleKey "user".

Definition request_of (userID method path : string) (body : api.Body) : api.Request :=
  api.mkRequest method path ∅ body (ctx_of userID).

Lemma non_owner_is_forbidden_witness :
  store1 !! "c1" = Some alice_record
  /\ storage.UserID alice_record
     <> api.UserIDFromContext (ctx_of "bob")
  /\ api.Status
       (@api.handleComment api.ascii_strings env0 api.newResponseWriter
          (request_of "bob" "DELETE" "/api/v1/comments/c1" (api.BodyUndecodable "EOF"))
          store1).1 = 403
  /\ (@api.handleComment api.ascii_strings env0 api.newResponseWriter
        (request_of "bob" "DELETE" "/api/v1/comments/c1" (api.BodyUndecodable "EOF"))
        store1).2 = store1.
Proof.
  assert (Hs : store1 !! "c1" = Some alice_record) by reflexivity.
  assert (Hown : storage.UserID alice_record <> api.UserIDFromContext (ctx_of "bob"))
    by discriminate.
  split; [exact Hs|]. split; [exact Hown|].
  destruct (@non_owner_is_forbidden api.ascii_strings env0 api.newResponseWriter
              (request_of "bob" "DELETE" "/api/v1/comments/c1" (api.BodyUndecodable "EOF"))
              store1 "c1" alice_record Hs ltac:(discriminate) eq_refl Hown)
    as (Hstore & Hstatus & _).
  split; [|exact Hstore].
  apply Hstatus; [reflexivity | reflexivity | left; reflexivity].
Defined.

(** C6 as stated fails for a PUT whose body does not pass validation: the
    reply to the non-owner is 400, not 403. *)
Lemma non_owner_invalid_PUT_is_not_403 :
  store1 !! "c1" = Some alice_record
  /\ storage.UserID alice_record <> api.UserIDFromContext (ctx_of "bob")
  /\ api.Status
       (@api.handleComment api.ascii_strings env0 api.newResponseWriter
          (request_of "bob" "PUT" "/api/v1/comments/c1" (api.BodyJSON "" "Bob"))
          store1).1 = 400
  /\ api.Status
       (@api.handleComment api.ascii_strings env0 api.newResponseWriter
          (request_of "bob" "PUT" "/api/v1/comments/c1" (api.BodyJSON "" "Bob"))
          store1).1 <> api.StatusForbidden.
Proof.
  split; [reflexivity|]. split; [discriminate|].
  split; [reflexivity|]. vm_compute. discriminate.
Qed.

Lemma POST_with_problems_reply_witness :
  @api.Valid api.ascii_strings (api.mkCreateCommentRequest "" "x") <> ∅
  /\ @api.handleComments api.ascii_strings env0 api.newResponseWriter
       (request_of "alice" "POST" "/api/v1/comments" (api.BodyJSON "" "x")) store1
     = (api.http_Error api.newResponseWriter
          "invalid api.createCommentRequest: 1 problems" 400,
        store1).
Proof.
  assert (Hp : @api.Valid api.ascii_strings (api.mkCreateCommentRequest "" "x") <> ∅).
  { intros E. apply (f_equal (fun m : gmap string string => m !! "content")) in E.
    vm_compute in E. discriminate. }
  split; [exact Hp|].
  exact (@POST_with_problems_reply api.ascii_strings env0 api.newResponseWriter
           (request_of "alice" "POST" "/api/v1/comments" (api.BodyJSON "" "x")) store1
           "" "x" eq_refl eq_refl Hp).
Defined.

(** The reply to the scenario of the specification carries no map of
    problems: its body is a line of text. *)
Lemma POST_empty_content_body :
  api.RespBody
    (@api.handleComments api.ascii_strings env0 api.newResponseWriter
       (request_of "alice" "POST" "/api/v1/comments" (api.BodyJSON "" "x")) store1).1
  = api.Text ("invalid api.createCommentRequest: 1 problems" ++ String (ascii_of_nat 10) "")
  /\ api.RespHeader
       (@api.handleComments api.ascii_strings env0 api.newResponseWriter
          (request_of "alice" "POST" "/api/v1/comments" (api.BodyJSON "" "x")) store1).1
     !! "Content-Type" = Some "text/plain; charset=utf-8".
Proof. split; reflexivity. Qed.

(** ** Concurrent creates *)

Section concurrent_facts.

Import storage concurrent.

Local Open Scope list_scope.

(** The identifier generator never repeats itself, and the identifiers it
    produces from the [k0]-th on are not keys of the initial store [s0]:
    the uniqueness the store expects from [util.GenerateID]. *)
Variable ids : nat -> string.
Variable s0 : gmap string Comment.
Variable k0 : nat.
Hypothesis ids_inj : forall i j, ids i = ids j -> i = j.
Hypothesis ids_fresh : forall j, (k0 <= j)%nat -> s0 !! ids j = None.

(** The number of goroutines inside the critical section. *)
Fixpoint ncs (l : list goroutine) : nat :=
  match l with
  | [] => 0
  | t :: l' => ((if inCS t then 1 else 0) + ncs l')%nat
  end.

Lemma ncs_app l1 l2 : ncs (l1 ++ l2) = (ncs l1 + ncs l2)%nat.
Proof. induction l1 as [|t l1 IH]; cbn; [reflexivity|]. rewrite IH. lia. Qed.

(** What must hold of one goroutine: its context is live while it has not
    passed the [select]; an identifier it has drawn and not yet stored is
    one of the generator's and is not a key of the map; it has not failed. *)
Definition thread_ok (m : gmap string Comment) (n : nat) (t : goroutine) : Prop :=
  match t with
  | AtLock ctx _ | AtSelect ctx _ => ctx_done ctx = None
  | AtGenerateID _ => True
  | AtNow c | AtStore c =>
      m !! ID c = None /\ exists j, (k0 <= j < n)%nat /\ ID c = ids j
  | AtUnlock res | Returned res => exists c, res = Ok c
  end.

(** [thread_ok] of a goroutine outside the critical section does not
    depend on the map or on the generator. *)
Lemma thread_ok_outside m n m' n' t :
  inCS t = false -> thread_ok m n t -> thread_ok m' n' t.
Proof. destruct t; cbn; try discriminate; auto. Qed.

Lemma thread_ok_drawn m n t : thread_ok m n t -> thread_ok m (S n) t.
Proof.
  destruct t; cbn; auto. all: intros [Hm (j & Hj & Hid)]; split; [exact Hm|];
    exists j; split; [lia|exact Hid].
Qed.

(** The invariant of the runs from [initial s0 k0 calls]. *)
Record Inv (N : nat) (st : State) : Prop := mkInv {
  inv_threads : length (threads st) = N;
  inv_lock : ncs (threads st) = if locked st then 1%nat else 0%nat;
  inv_drawn : (k0 <= drawn st)%nat;
  inv_ok : Forall (thread_ok (comments st) (drawn st)) (threads st);
  inv_keys : forall id, is_Some (comments st !! id) ->
      is_Some (s0 !! id) \/ exists j, (k0 <= j < drawn st)%nat /\ id = ids j;
  inv_stored : Forall (fun c => is_Some (comments st !! ID c)) (omap stored (threads st));
  inv_distinct : NoDup (ID <$> omap stored (threads st));
  inv_size : size (comments st) = (size s0 + length (omap stored (threads st)))%nat
}.

Lemma omap_stored_initial (calls : list (Context * Comment)) :
  omap stored ((fun call => AtLock call.1 call.2) <$> calls) = [].
Proof. induction calls as [|call calls IH]; [reflexivity|exact IH]. Qed.

Lemma ncs_initial (calls : list (Context * Comment)) :
  ncs ((fun call => AtLock call.1 call.2) <$> calls) = 0%nat.
Proof. induction calls as [|call calls IH]; [reflexivity|exact IH]. Qed.

Lemma Inv_initial calls :
  Forall (fun call => ctx_err call.1 = None) calls ->
  Inv (length calls) (initial s0 k0 calls).
Proof.
  intros Hlive. unfold initial. split; cbn [threads locked drawn comments].
  - apply length_fmap.
  - apply ncs_initial.
  - lia.
  - apply Forall_fmap. eapply Forall_impl; [exact Hlive|].
    intros [ctx c] Hc. cbn in *. unfold ctx_done. rewrite Hc. reflexivity.
  - auto.
  - rewrite omap_stored_initial. constructor.
  - rewrite omap_stored_initial. constructor.
  - rewrite omap_stored_initial. cbn. lia.
Qed.

(** When one goroutine of the pool is inside the critical section and the
    count is at most one, the others are outside. *)
Lemma others_outside l1 t l2 :
  inCS t = true -> (ncs (l1 ++ t :: l2) <= 1)%nat ->
  Forall (fun u => inCS u = false) l1 /\ Forall (fun u => inCS u = false) l2.
Proof.
  intros Ht. rewrite ncs_app. cbn [ncs]. rewrite Ht. intros Hle.
  assert (Hz : forall l, ncs l = 0%nat -> Forall (fun u => inCS u = false) l).
  { induction l as [|u l IH]; cbn; [constructor|].
    destruct (inCS u) eqn:E; [lia|]. intros Hl. constructor; auto. }
  split; apply Hz; lia.
Qed.

Lemma Forall_outside m n m' n' l :
  Forall (fun u => inCS u = false) l ->
  Forall (thread_ok m n) l -> Forall (thread_ok m' n') l.
Proof.
  intros Hout Hok. induction l as [|u l IH]; [constructor|].
  inversion Hout; inversion Hok; subst. constructor; [|auto].
  eapply thread_ok_outside; eauto.
Qed.

Lemma ncs_lock_le (b : bool) l : ncs l = (if b then 1%nat else 0%nat) -> (ncs l <= 1)%nat.
Proof. destruct b; lia. Qed.

Lemma omap_stored_middle l1 t l2 :
  omap stored (l1 ++ t :: l2)
  = omap stored l1 ++ option_list (stored t) ++ omap stored l2.
Proof. rewrite omap_app. cbn. destruct (stored t); reflexivity. Qed.

(** Every step keeps the invariant. *)
Lemma Inv_step N st st' : Inv N st -> step ids st st' -> Inv N st'.
Proof.
  intros [Hlen Hlock Hdrawn Hok Hkeys Hst Hnd Hsz] Hstep.
  destruct Hstep as
    [m n l1 l2 ctx c | m b n l1 l2 ctx c e Hdone | m b n l1 l2 ctx c Hdone
    | m b n l1 l2 c | m b n l1 l2 c now | m b n l1 l2 c | m b n l1 l2 res];
    cbn [threads locked drawn comments] in *;
    apply Forall_app in Hok as [Hok1 Hok2]; apply Forall_cons in Hok2 as [Ht Hok2];
    cbn [thread_ok] in Ht.
  - (* Lock *)
    split; cbn [threads locked drawn comments].
    + rewrite length_app in *. exact Hlen.
    + rewrite ncs_app in *. cbn [ncs inCS] in *. lia.
    + exact Hdrawn.
    + apply Forall_app. split; [exact Hok1|]. constructor; [exact Ht|exact Hok2].
    + exact Hkeys.
    + rewrite omap_stored_middle in *. exact Hst.
    + rewrite omap_stored_middle in *. exact Hnd.
    + rewrite omap_stored_middle in *. exact Hsz.
  - (* select, context done: excluded *)
    congruence.
  - (* select, default *)
    split; cbn [threads locked drawn comments].
    + rewrite length_app in *. exact Hlen.
    + rewrite ncs_app in *. exact Hlock.
    + exact Hdrawn.
    + apply Forall_app. split; [exact Hok1|]. constructor; [exact I|exact Hok2].
    + exact Hkeys.
    + rewrite omap_stored_middle in *. exact Hst.
    + rewrite omap_stored_middle in *. exact Hnd.
    + rewrite omap_stored_middle in *. exact Hsz.
  - (* GenerateID *)
    split; cbn [threads locked drawn comments].
    + rewrite length_app in *. exact Hlen.
    + rewrite ncs_app in *. exact Hlock.
    + lia.
    + apply Forall_app. split; [|constructor].
      * eapply Forall_impl; [exact Hok1|]. intros u. apply thread_ok_drawn.
      * cbn [thread_ok set_ID ID]. split; [|exists n; split; [lia|reflexivity]].
        destruct (m !! ids n) as [x|] eqn:E; [|reflexivity].
        destruct (Hkeys (ids n) (mk_is_Some _ _ E)) as [[y Hy]|(j & Hj & Hid)].
        -- rewrite ids_fresh in Hy by exact Hdrawn. discriminate.
        -- apply ids_inj in Hid. lia.
      * eapply Forall_impl; [exact Hok2|]. intros u. apply thread_ok_drawn.
    + intros id Hid. destruct (Hkeys id Hid) as [Hs|(j & Hj & ->)]; [left; exact Hs|].
      right. exists j. split; [lia|reflexivity].
    + rewrite omap_stored_middle in *. exact Hst.
    + rewrite omap_stored_middle in *. exact Hnd.
    + rewrite omap_stored_middle in *. exact Hsz.
  - (* time.Now *)
    split; cbn [threads locked drawn comments].
    + rewrite length_app in *. exact Hlen.
    + rewrite ncs_app in *. exact Hlock.
    + exact Hdrawn.
    + apply Forall_app. split; [exact Hok1|]. constructor; [exact Ht|exact Hok2].
    + exact Hkeys.
    + rewrite omap_stored_middle in *. exact Hst.
    + rewrite omap_stored_middle in *. exact Hnd.
    + rewrite omap_stored_middle in *. exact Hsz.
  - (* the write to the map *)
    destruct Ht as [Hfree (j & Hj & Hid)].
    destruct (others_outside l1 (AtStore c) l2 eq_refl (ncs_lock_le b _ Hlock))
      as [Hout1 Hout2].
    rewrite omap_stored_middle in Hst, Hnd, Hsz. cbn in Hst, Hnd, Hsz.
    assert (Hnew : ID c ∉ ID <$> (omap stored l1 ++ omap stored l2)).
    { intros Hin. apply list_elem_of_fmap in Hin as (c' & Heq & Hin).
      rewrite Forall_forall in Hst. destruct (Hst c' Hin) as [x Hx]. congruence. }
    split; cbn [threads locked drawn comments].
    + rewrite length_app in *. exact Hlen.
    + rewrite ncs_app in *. exact Hlock.
    + exact Hdrawn.
    + apply Forall_app. split; [eapply Forall_outside; eauto|].
      constructor; [cbn; eauto|eapply Forall_outside; eauto].
    + intros id Hin. apply lookup_insert_is_Some in Hin as [<-|[_ Hin]].
      * right. exists j. split; [exact Hj|exact Hid].
      * apply Hkeys, Hin.
    + rewrite omap_stored_middle. cbn.
      apply Forall_app in Hst as [Hst1 Hst2].
      assert (Hmono : forall c', is_Some (m !! ID c') -> is_Some (<[ID c := c]> m !! ID c')).
      { intros c' Hc'. apply lookup_insert_is_Some'. right. exact Hc'. }
      apply Forall_app. split; [eapply Forall_impl; [exact Hst1|exact Hmono]|].
      constructor; [|eapply Forall_impl; [exact Hst2|exact Hmono]].
      rewrite lookup_insert_eq. eauto.
    + rewrite omap_stored_middle. cbn.
      rewrite fmap_app, fmap_cons. rewrite fmap_app in Hnd, Hnew.
      apply NoDup_app in Hnd as (Hnd1 & Hdisj & Hnd2).
      apply NoDup_app. split; [exact Hnd1|]. split.
      * intros x Hx1 Hx2. apply elem_of_cons in Hx2 as [->|Hx2].
        -- apply Hnew. apply elem_of_app. left. exact Hx1.
        -- exact (Hdisj x Hx1 Hx2).
      * apply NoDup_cons. split; [|exact Hnd2].
        intros Hin. apply Hnew. apply elem_of_app. right. exact Hin.
    + rewrite omap_stored_middle. cbn.
      rewrite map_size_insert_None by exact Hfree.
      rewrite length_app in *. cbn [length]. lia.
  - (* Unlock *)
    assert (Hb : ncs l1 = 0%nat /\ ncs l2 = 0%nat).
    { rewrite ncs_app in Hlock. cbn [ncs inCS] in Hlock. destruct b; lia. }
    split; cbn [threads locked drawn comments].
    + rewrite length_app in *. exact Hlen.
    + rewrite ncs_app. cbn [ncs inCS]. lia.
    + exact Hdrawn.
    + apply Forall_app. split; [exact Hok1|]. constructor; [exact Ht|exact Hok2].
    + exact Hkeys.
    + rewrite omap_stored_middle in *. exact Hst.
    + rewrite omap_stored_middle in *. exact Hnd.
    + rewrite omap_stored_middle in *. exact Hsz.
Qed.

Lemma Inv_steps N st st' : Inv N st -> steps ids st st' -> Inv N st'.
Proof. intros HI Hs. induction Hs as [|st1 st2 st3 H12 _ IH]; eauto using Inv_step. Qed.

Lemma steps_trans st1 st2 st3 :
  steps ids st1 st2 -> steps ids st2 st3 -> steps ids st1 st3.
Proof.
  intros H12 H23. induction H12 as [|sa sb sc Hab _ IH]; [exact H23|].
  eapply steps_step; [exact Hab|exact (IH H23)].
Qed.

(** One goroutine with a live context, scheduled alone from [Lock] to
    [Unlock]. *)
Lemma one_create_runs m n l1 l2 ctx c :
  ctx_done ctx = None ->
  exists c',
    steps ids (mkState m false n (l1 ++ AtLock ctx c :: l2))
      (mkState (<[ID c' := c']> m) false (S n) (l1 ++ Returned (Ok c') :: l2)).
Proof.
  intros Hctx. exists (set_CreatedAt (set_ID c (ids n)) 0).
  eapply steps_step; [apply step_lock|].
  eapply steps_step; [apply step_select_default, Hctx|].
  eapply steps_step; [apply step_generate|].
  eapply steps_step; [apply (step_now ids _ _ _ _ _ _ 0)|].
  eapply steps_step; [apply step_store|].
  eapply steps_step; [apply step_unlock|].
  apply steps_refl.
Qed.

(** The goroutines can all return: scheduled one after the other, every
    call runs to its end. *)
Lemma creates_can_complete calls :
  Forall (fun call => ctx_err call.1 = None) calls ->
  exists st, steps ids (initial s0 k0 calls) st /\ completed st = true.
Proof.
  intros Hlive. unfold initial.
  assert (Hgen : forall finished m n,
    forallb is_returned finished = true ->
    exists st,
      steps ids (mkState m false n (finished ++ ((fun call => AtLock call.1 call.2) <$> calls))) st
      /\ completed st = true).
  { induction Hlive as [|[ctx c] calls Hc _ IH]; intros finished m n Hfin.
    - eexists. split; [apply steps_refl|]. unfold completed. cbn [threads fmap list_fmap].
      rewrite app_nil_r. exact Hfin.
    - cbn [fmap list_fmap fst snd]. cbn [fst] in Hc.
      destruct (one_create_runs m n finished
                  ((fun call => AtLock call.1 call.2) <$> calls) ctx c) as [c' Hrun].
      { unfold ctx_done. rewrite Hc. reflexivity. }
      destruct (IH (finished ++ [Returned (Ok c')]) (<[ID c' := c']> m) (S n))
        as (st & Hrest & Hdone).
      { rewrite forallb_app, Hfin. reflexivity. }
      exists st. split; [|exact Hdone].
      eapply steps_trans; [exact Hrun|].
      rewrite <- app_assoc in Hrest. exact Hrest. }
  apply (Hgen [] s0 k0 eq_refl).
Qed.

(** Goroutines that have all returned a record are the records they
    stored. *)
Lemma returned_stored m n l :
  forallb is_returned l = true ->
  Forall (thread_ok m n) l ->
  l = (fun c => Returned (Ok c)) <$> omap stored l.
Proof.
  induction l as [|t l IH]; [reflexivity|].
  cbn [forallb]. intros Hret Hok. apply andb_true_iff in Hret as [Ht Hl].
  inversion Hok as [|? ? Hokt Hokl]; subst.
  destruct t; try discriminate. destruct Hokt as [c ->].
  cbn. f_equal. apply IH; assumption.
Qed.

(** C9. [N] goroutines call [Create] on one store with live contexts, in
    any interleaving the write lock allows.  Once all have returned, each
    has returned a record, the identifiers of the returned records are
    pairwise distinct, and [Count] is the count before plus [N]. *)
Theorem concurrent_creates_lose_no_write calls st :
  Forall (fun call => ctx_err call.1 = None) calls ->
  steps ids (initial s0 k0 calls) st ->
  completed st = true ->
  exists results : list Comment,
    threads st = (fun c => Returned (Ok c)) <$> results
    /\ length results = length calls
    /\ NoDup (ID <$> results)
    /\ count st = (count (initial s0 k0 calls) + Z.of_nat (length calls))%Z.
Proof.
  intros Hlive Hrun Hdone.
  pose proof (Inv_steps _ _ _ (Inv_initial calls Hlive) Hrun)
    as [Hlen _ _ Hok _ _ Hnd Hsz].
  pose proof (returned_stored _ _ _ Hdone Hok) as Hthreads.
  exists (omap stored (threads st)).
  assert (Hn : length (omap stored (threads st)) = length calls).
  { rewrite <- Hlen. rewrite Hthreads at 2. rewrite length_fmap. reflexivity. }
  split; [exact Hthreads|]. split; [exact Hn|]. split; [exact Hnd|].
  unfold count, Count. cbn. rewrite Hsz, Hn. lia.
Qed.

End concurrent_facts.

(** A generator that never repeats itself, and two calls on the store that
    holds one record. *)
Fixpoint unary (n : nat) : string :=
  match n with
  | O => ""
  | S n' => String "i" (unary n')
  end.

Lemma unary_inj i j : unary i = unary j -> i = j.
Proof.
  revert j. induction i as [|i IH]; intros [|j]; cbn; try discriminate; [reflexivity|].
  intros [= E]. f_equal. apply IH, E.
Qed.

Lemma unary_fresh j : (0 <= j)%nat -> store1 !! unary j = None.
Proof.
  intros _. unfold store1. apply lookup_singleton_ne. destruct j; discriminate.
Qed.

Definition two_calls : list (Context * storage.Comment) :=
  [ (ctx_of "alice", storage.mkComment "" "second" "Alice" zeroTime "alice");
    (ctx_of "bob", storage.mkComment "" "third" "Bob" zeroTime "bob") ].

Lemma concurrent_creates_lose_no_write_witness :
  Forall (fun call => ctx_err call.1 = None) two_calls
  /\ exists st,
       concurrent.steps unary (concurrent.initial store1 0 two_calls) st
       /\ concurrent.completed st = true
       /\ concurrent.count st = 3.
Proof.
  assert (Hlive : Forall (fun call => ctx_err call.1 = None) two_calls)
    by (repeat constructor).
  split; [exact Hlive|].
  destruct (creates_can_complete unary store1 0 two_calls Hlive) as (st & Hrun & Hdone).
  exists st. split; [exact Hrun|]. split; [exact Hdone|].
  destruct (concurrent_creates_lose_no_write unary store1 0 unary_inj unary_fresh
              two_calls st Hlive Hrun Hdone) as (results & _ & _ & _ & Hcount).
  rewrite Hcount. reflexivity.
Defined.

(** * More of the store *)

Section store_more.

Import storage.

Local Open Scope list_scope.

Implicit Types (s : gmap string Comment) (ctx : Context) (c draft : Comment).

(** The store is keyed by identifier: every record sits under its own
    [ID]. *)
Definition keyed (s : gmap string Comment) : Prop :=
  forall id c, s !! id = Some c -> ID c = id.

(** A record is one of the map's values exactly when some key holds it. *)
Lemma elem_of_values s c :
  c ∈ (map_to_list s).*2 <-> exists id, s !! id = Some c.
Proof.
  rewrite list_elem_of_fmap. split.
  - intros ([id c'] & -> & Hin). exists id. apply elem_of_map_to_list, Hin.
  - intros [id Hid]. exists (id, c). split; [reflexivity|].
    apply elem_of_map_to_list, Hid.
Qed.

Lemma count_live ctx s : ctx_err ctx = None -> (Count ctx s).1.1 = Z.of_nat (size s).
Proof. intros Hctx. unfold Count. rewrite (ctx_done_live _ Hctx). reflexivity. Qed.

(** X1. [Delete] of a stored record succeeds, removes that key and no other,
    and lowers [Count] by one; after it [Get] and a second [Delete] of the
    same identifier both report [ErrNotFound], the second leaving the store
    alone. *)
Theorem Delete_then_not_found ctx ctx' id s existing :
  ctx_err ctx = None ->
  ctx_err ctx' = None ->
  s !! id = Some existing ->
  exists s',
    Delete ctx id s = (None, s')
    /\ s' !! id = None
    /\ (forall id', id' <> id -> s' !! id' = s !! id')
    /\ (Count ctx' s').1.1 = (Count ctx' s).1.1 - 1
    /\ Get ctx' id s' = (Err ErrNotFound, s')
    /\ Delete ctx' id s' = (Some ErrNotFound, s').
Proof.
  intros Hctx Hctx' Hs. exists (delete id s).
  unfold Delete, Get. rewrite (ctx_done_live _ Hctx), (ctx_done_live _ Hctx'), Hs.
  rewrite lookup_delete_eq. repeat split.
  - intros id' Hne. apply lookup_delete_ne. congruence.
  - rewrite !count_live by exact Hctx'.
    rewrite map_size_delete_Some by (rewrite Hs; eauto).
    assert (size s <> 0%nat).
    { apply map_size_non_empty_iff. intros ->. rewrite lookup_empty in Hs. discriminate. }
    lia.
Qed.

(** X2. An identifier that is not in the store: [Get], [Update] and [Delete]
    report [ErrNotFound] and change nothing; in particular [Update] does
    not insert the draft. *)
Theorem missing_id_is_not_found ctx id draft s :
  ctx_err ctx = None ->
  s !! id = None ->
  Get ctx id s = (Err ErrNotFound, s)
  /\ Update ctx id draft s = (Err ErrNotFound, s)
  /\ Delete ctx id s = (Some ErrNotFound, s).
Proof.
  intros Hctx Hs. unfold Get, Update, Delete.
  rewrite (ctx_done_live _ Hctx), Hs. repeat split.
Qed.

(** X3. [Create] on a live context keeps the draft's content, author and
    owner and replaces its identifier and timestamp by the generated
    ones.  Other keys are untouched.  With a fresh identifier [Count]
    grows by one; if the generated identifier is already a key, the record
    under it is overwritten without an error and [Count] stays. *)
Theorem Create_effect ctx ctx' draft id now s :
  ctx_err ctx = None ->
  ctx_err ctx' = None ->
  exists r s',
    Create ctx draft id now s = (Ok r, s')
    /\ r = mkComment id (Content draft) (Author draft) now (UserID draft)
    /\ s' !! id = Some r
    /\ (forall id', id' <> id -> s' !! id' = s !! id')
    /\ (s !! id = None -> (Count ctx' s').1.1 = (Count ctx' s).1.1 + 1)
    /\ (is_Some (s !! id) -> (Count ctx' s').1.1 = (Count ctx' s).1.1).
Proof.
  intros Hctx Hctx'. rewrite (Create_live _ _ _ _ _ Hctx).
  eexists _, _. split; [reflexivity|]. split; [reflexivity|].
  split; [apply lookup_insert_eq|]. split; [|split].
  - intros id' Hne. apply lookup_insert_ne. congruence.
  - intros Hnone. rewrite !count_live by exact Hctx'.
    rewrite map_size_insert_None by exact Hnone. lia.
  - intros Hsome. rewrite !count_live by exact Hctx'.
    rewrite map_size_insert_Some by exact Hsome. reflexivity.
Qed.

(** X4. [List] on a live context returns the stored records and nothing else,
    as many as [Count] reports, and leaves the store alone; when the store
    is keyed by identifier no identifier occurs twice in the list. *)
Theorem List_is_the_store ctx s :
  ctx_err ctx = None ->
  exists l,
    List ctx s = (Ok l, s)
    /\ (forall c, c ∈ l <-> exists id, s !! id = Some c)
    /\ Z.of_nat (length l) = (Count ctx s).1.1
    /\ (keyed s -> NoDup (ID <$> l)).
Proof.
  intros Hctx. unfold List. rewrite (ctx_done_live _ Hctx).
  eexists. split; [reflexivity|]. split; [apply elem_of_values|]. split.
  - rewrite count_live by exact Hctx. rewrite length_fmap, length_map_to_list. reflexivity.
  - intros Hkeyed.
    assert (Heq : ID <$> (map_to_list s).*2 = (map_to_list s).*1).
    { rewrite <- list_fmap_compose. apply Forall_fmap_ext_1, Forall_forall.
      intros [id c] Hin. cbn. apply Hkeyed, elem_of_map_to_list, Hin. }
    rewrite Heq. apply NoDup_fst_map_to_list.
Qed.

(** Membership in the list [ListByUser] computes. *)
Lemma elem_of_owners_records userID s c :
  c ∈ List.filter (fun c => String.eqb (UserID c) userID) ((map_to_list s).*2)
  <-> (exists id, s !! id = Some c) /\ UserID c = userID.
Proof.
  rewrite list_elem_of_In, filter_In, <- list_elem_of_In, elem_of_values, String.eqb_eq.
  reflexivity.
Qed.

(** X5. [ListByUser] returns exactly the stored records whose owner is the
    given one. *)
Theorem ListByUser_is_the_owners_records ctx userID s :
  ctx_err ctx = None ->
  exists l,
    ListByUser ctx userID s = (Ok l, s)
    /\ (forall c, c ∈ l <-> (exists id, s !! id = Some c) /\ UserID c = userID).
Proof.
  intros Hctx. unfold ListByUser. rewrite (ctx_done_live _ Hctx).
  eexists. split; [reflexivity|]. intros c. apply elem_of_owners_records.
Qed.

(** X6. [DeleteByUser] removes the records of the given owner and only those:
    a record is in the store afterwards exactly when it was there before
    and belongs to somebody else, and [ListByUser] for that owner is then
    empty. *)
Theorem DeleteByUser_removes_the_owners_records ctx ctx' userID s :
  ctx_err ctx = None ->
  ctx_err ctx' = None ->
  exists s',
    DeleteByUser ctx userID s = (None, s')
    /\ (forall id c, s' !! id = Some c <-> s !! id = Some c /\ UserID c <> userID)
    /\ ListByUser ctx' userID s' = (Ok [], s').
Proof.
  intros Hctx Hctx'. unfold DeleteByUser. rewrite (ctx_done_live _ Hctx).
  eexists. split; [reflexivity|].
  assert (Hlookup : forall id c,
    filter (fun kv : string * Comment => UserID kv.2 <> userID) s !! id = Some c
    <-> s !! id = Some c /\ UserID c <> userID).
  { intros id c. apply map_lookup_filter_Some. }
  split; [exact Hlookup|].
  unfold ListByUser. rewrite (ctx_done_live _ Hctx').
  destruct (List.filter _ _) as [|c l] eqn:Hl; [reflexivity|]. exfalso.
  assert (Hin : c ∈ List.filter (fun c => String.eqb (UserID c) userID)
                  ((map_to_list
                      (filter (fun kv : string * Comment => UserID kv.2 <> userID) s)).*2))
    by (rewrite Hl; left).
  apply elem_of_owners_records in Hin as [[id Hid] Hu].
  apply Hlookup in Hid as [_ Hne]. contradiction.
Qed.


(** X8. [Update] never changes which identifiers are stored, nor [Count],
    whatever the context, the identifier and the draft are. *)
Theorem Update_keeps_the_keys ctx ctx' id draft s :
  (forall id', is_Some ((Update ctx id draft s).2 !! id') <-> is_Some (s !! id'))
  /\ (Count ctx' (Update ctx id draft s).2).1.1 = (Count ctx' s).1.1.
Proof.
  unfold Update. destruct (ctx_done ctx); [split; reflexivity|].
  destruct (s !! id) as [existing|] eqn:Hs; [|split; reflexivity].
  cbn [snd]. split.
  - intros id'. rewrite lookup_insert_is_Some. split.
    + intros [<-|[_ H]]; [rewrite Hs; eauto|exact H].
    + intros H. destruct (decide (id = id')); [left; assumption|right; auto].
  - unfold Count. destruct (ctx_done ctx'); [reflexivity|]. cbn.
    rewrite map_size_insert_Some by (rewrite Hs; eauto). reflexivity.
Qed.

(** X9. The empty store is keyed by identifier and every operation of the
    store that writes keeps it so. *)
Theorem keyed_is_invariant ctx s :
  keyed s ->
  keyed NewCommentStore
  /\ (forall draft id now, keyed (Create ctx draft id now s).2)
  /\ (forall id draft, keyed (Update ctx id draft s).2)
  /\ (forall id, keyed (Delete ctx id s).2)
  /\ (forall userID, keyed (DeleteByUser ctx userID s).2)
  /\ (forall age now, keyed (DeleteOlderThan ctx age now s).2).
Proof.
  intros Hk. unfold keyed in *.
  split; [intros k x; unfold NewCommentStore; rewrite lookup_empty; discriminate|].
  unfold Create, Update, Delete, DeleteByUser, DeleteOlderThan.
  destruct (ctx_done ctx); [repeat split; intros; eapply Hk; eassumption|].
  split; [|split; [|split; [|split]]].
  - intros draft id now k x. cbn [snd ID set_ID set_CreatedAt].
    rewrite lookup_insert. case_decide as E.
    + intros [= <-]. cbn. exact E.
    + apply Hk.
  - intros id draft. destruct (s !! id) as [existing|] eqn:Hs; [|exact Hk].
    intros k x. cbn [snd]. rewrite lookup_insert. case_decide as E.
    + intros [= <-]. cbn. subst k. apply Hk, Hs.
    + apply Hk.
  - intros id. destruct (s !! id); [|exact Hk].
    intros k x. cbn [snd]. rewrite lookup_delete. case_decide; [discriminate|apply Hk].
  - intros userID k x. cbn [snd]. rewrite map_lookup_filter_Some. intros [Hs _].
    apply Hk, Hs.
  - intros age now k x. cbn [snd]. rewrite map_lookup_filter_Some. intros [Hs _].
    apply Hk, Hs.
Qed.

End store_more.

(** * More of the program: configuration, login, logging *)

(** ** internal/config/config.go *)

Module config.

Record Config := mkConfig {
  DatabaseURL : string;
  JWTSecret : string;
  Environment : string
}.

(** [Load]; the error is the text given to [fmt.Errorf]. *)
Definition Load (getenv : string -> string) : Config + string :=
  let cfg := mkConfig (getenv "DATABASE_URL") (getenv "JWT_SECRET") (getenv "ENVIRONMENT") in
  if String.eqb (JWTSecret cfg) "" then inr "JWT_SECRET is required"
  else
    let cfg :=
      if String.eqb (Environment cfg) "" then
        mkConfig (DatabaseURL cfg) (JWTSecret cfg) "development"
      else cfg in
    let cfg :=
      if String.eqb (DatabaseURL cfg) "" then
        mkConfig "memory://" (JWTSecret cfg) (Environment cfg)
      else cfg in
    inl cfg.

End config.

(** ** handlers.go: the login handler *)

Module login.

Import api.

Record loginRequest := mkLoginRequest {
  Username : string;
  Password : string
}.

Record loginResponse := mkLoginResponse {
  Token : string;
  ExpiresIn : Z
}.

(** What [json.NewDecoder(r.Body).Decode(&v)] makes of the request body for
    a [loginRequest]. *)
Inductive LoginBody :=
  | LoginUndecodable (msg : string)
  | LoginJSON (username password : string).

(** [loginRequest.Valid]. *)
Definition Valid `{GoStrings} (r : loginRequest) : gmap string string :=
  let problems : gmap string string := ∅ in
  let problems :=
    if String.eqb (TrimSpace (Username r)) "" then
      <["username" := "username is required"]> problems
    else problems in
  let problems :=
    if String.eqb (TrimSpace (Password r)) "" then
      <["password" := "password is required"]> problems
    else problems in
  problems.

(** [decodeValid[loginRequest]]. *)
Definition decodeValid `{GoStrings} (body : LoginBody)
    : loginRequest * gmap string string * option string :=
  match body with
  | LoginUndecodable msg => (mkLoginRequest "" "", ∅, Some ("decode json: " ++ msg))
  | LoginJSON username password =>
      let v := mkLoginRequest username password in
      let problems := Valid v in
      if (0 <? size problems)%nat then
        (v, problems,
         Some ("invalid api.loginRequest: " ++ format_d (size problems) ++ " problems"))
      else (v, ∅, None)
  end.

(** What the login handler has written to the body of its response. *)
Inductive LoginWritten :=
  | LoginNothing
  | LoginText (s : string)
  | LoginProblems (problems : gmap string string)
  | LoginToken (resp : loginResponse).

Record LoginWriter := mkLoginWriter {
  LoginHeader : gmap string string;
  LoginStatus : Z;
  LoginBodyOut : LoginWritten
}.

Definition newLoginWriter : LoginWriter := mkLoginWriter ∅ 0 LoginNothing.

(** [w.WriteHeader], [http.Error] and [encode] on this writer. *)
Definition login_WriteHeader (w : LoginWriter) (code : Z) : LoginWriter :=
  if LoginStatus w =? 0 then mkLoginWriter (LoginHeader w) code (LoginBodyOut w) else w.

Definition login_Error (w : LoginWriter) (msg : string) (code : Z) : LoginWriter :=
  let w := mkLoginWriter
             (<["X-Content-Type-Options" := "nosniff"]>
                (<["Content-Type" := "text/plain; charset=utf-8"]> (LoginHeader w)))
             (LoginStatus w) (LoginBodyOut w) in
  let w := login_WriteHeader w code in
  mkLoginWriter (LoginHeader w) (LoginStatus w) (LoginText (msg ++ String (ascii_of_nat 10) "")).

Definition login_encode (w : LoginWriter) (status : Z) (v : LoginWritten) : LoginWriter :=
  let w := mkLoginWriter (<["Content-Type" := "application/json"]> (LoginHeader w))
             (LoginStatus w) (LoginBodyOut w) in
  let w := login_WriteHeader w status in
  mkLoginWriter (LoginHeader w) (LoginStatus w) v.

(** [handleLogin].  [method] is [r.Method], [body] the decoded request
    body, and [t_exp], [t_iat], [t_nbf] the clock readings
    [GenerateToken] takes.  Calls to the logger are left out. *)
Definition handleLogin `{auth.JWTLib} `{GoStrings} (jwtManager : auth.JWTManager)
    (t_exp t_iat t_nbf : Time) (w : LoginWriter) (method : string) (body : LoginBody)
    : LoginWriter :=
  if negb (String.eqb method "POST") then
    login_Error w "Method not allowed" StatusMethodNotAllowed
  else
    match decodeValid body with
    | (_, _, Some err) => login_Error w err StatusBadRequest
    | (req, problems, None) =>
        if (0 <? size problems)%nat then
          login_encode w StatusBadRequest (LoginProblems problems)
        else if negb (String.eqb (Username req) "test")
                || negb (String.eqb (Password req) "test123") then
          login_Error w "Invalid credentials" StatusUnauthorized
        else
          let token := auth.GenerateToken jwtManager (Username req) "user" t_exp t_iat t_nbf in
          login_encode w StatusOK
            (LoginToken (mkLoginResponse token (24 * 60 * 60)))
    end.

End login.

(** ** pkg/logging/logger.go: the fields of a log entry *)

Module logging.

Inductive Level := DEBUG | INFO | WARN | ERROR.

Definition Level_rank (l : Level) : Z :=
  match l with DEBUG => 0 | INFO => 1 | WARN => 2 | ERROR => 3 end.

(** [Level.String] for the four declared levels. *)
Definition Level_String (l : Level) : string :=
  match l with
  | DEBUG => "DEBUG" | INFO => "INFO" | WARN => "WARN" | ERROR => "ERROR"
  end.

(** The values passed as [...interface{}] to the logger. *)
Inductive value :=
  | VString (s : string)
  | VInt (n : Z).

(** The part of [logEntry] that does not come from the runtime (time,
    caller and stack trace are left out). *)
Record logEntry := mkLogEntry {
  entry_Level : string;
  entry_Message : string;
  entry_Fields : gmap string value
}.

(** The loop over [fields]: pairs [(fields[i], fields[i+1])] for even [i]
    below [len(fields)-1]; a pair whose key is not a string is skipped. *)
Fixpoint add_fields (fields : list value) (m : gmap string value) : gmap string value :=
  match fields with
  | key :: v :: rest =>
      add_fields rest
        (match key with
         | VString k => <[k := v]> m
         | VInt _ => m
         end)
  | _ => m
  end.

(** [Logger.log] for a non-nil context: [None] when the entry is below the
    logger's level.  The context is asked for the plain strings
    ["request_id"] and ["user_id"]. *)
Definition log (logger_level : Level) (ctx : Context) (level : Level) (msg : string)
    (fields : list value) : option logEntry :=
  if Level_rank level <? Level_rank logger_level then None
  else
    let m : gmap string value := ∅ in
    let m :=
      match Value ctx (StringKey "request_id") with
      | Some requestID => <["request_id" := VString requestID]> m
      | None => m
      end in
    let m :=
      match Value ctx (StringKey "user_id") with
      | Some userID => <["user_id" := VString userID]> m
      | None => m
      end in
    Some (mkLogEntry (Level_String level) msg (add_fields fields m)).

(** The level [NewLogger] sets. *)
Definition NewLogger_level : Level := INFO.

(** The entry [NewLoggingMiddleware] writes before it calls the next
    handler; [remoteAddr] is [r.RemoteAddr]. *)
Definition request_started (env : api.Env) (r : api.Request) (remoteAddr : string)
    : option logEntry :=
  let requestID := api.env_request_id env in
  let ctx := WithValue (api.ReqContext r) (StringKey "request_id") requestID in
  log NewLogger_level ctx INFO "request started"
    [ VString "method"; VString (api.Method r);
      VString "path"; VString (api.Path r);
      VString "request_id"; VString requestID;
      VString "remote_addr"; VString remoteAddr ].

End logging.

(** * More of the comment handlers *)

Section handler_more.

Import api.

Context `{GoStrings}.

Implicit Types (r : Request) (w : ResponseWriter) (s : gmap string storage.Comment)
  (env : Env).

Lemma Status_encode w status v : Status w = 0 -> Status (encode w status v) = status.
Proof. intros Hw. unfold encode, WriteHeader. cbn. rewrite Hw. reflexivity. Qed.

Lemma Status_WriteHeader w code : Status w = 0 -> Status (WriteHeader w code) = code.
Proof. intros Hw. unfold WriteHeader. rewrite Hw. reflexivity. Qed.

Lemma method_eqb_GET m : m = "GET" -> String.eqb m "GET" = true.
Proof. intros ->. reflexivity. Qed.

(** What the four kinds of requests to one record have in common: the
    identifier is what follows the prefix in the path. *)
Lemma commentID_of_path id :
  TrimPrefix ("/api/v1/comments/" ++ id) "/api/v1/comments/" = id.
Proof. apply TrimPrefix_app. Qed.

(** X10. A POST whose body decodes and passes validation, on a live context,
    is answered 201 with the new record: content and author as sent, the
    generated identifier and the clock's time, and as owner the identity in
    the request's context.  The record is stored under its identifier and
    nothing else changes. *)
Theorem POST_creates_the_record env w r s content author :
  Method r = "POST" ->
  ReqBody r = BodyJSON content author ->
  Valid (mkCreateCommentRequest content author) = ∅ ->
  ctx_err (ReqContext r) = None ->
  let record :=
    storage.mkComment (env_id env) content author (env_now env)
      (UserIDFromContext (ReqContext r)) in
  handleComments env w r s
  = (encode w StatusCreated (JSONComment (toResponse record)),
     <[env_id env := record]> s).
Proof.
  intros Hm Hb Hv Hctx record. unfold handleComments. rewrite Hm.
  replace (String.eqb "POST" "GET") with false by reflexivity.
  replace (String.eqb "POST" "POST") with true by reflexivity.
  rewrite (decodeValid_ok _ _ _ Hb Hv).
  replace (0 <? size (∅ : gmap string string))%nat with false by reflexivity.
  rewrite (Create_live _ _ _ _ _ Hctx). reflexivity.
Qed.

(** X11. GET on the collection, on a live context, is answered 200 with one
    entry for every stored record, whoever owns it, and nothing else; the
    store is not changed. *)
Theorem GET_lists_every_record env w r s :
  Method r = "GET" ->
  ctx_err (ReqContext r) = None ->
  Status w = 0 ->
  exists entries,
    handleComments env w r s = (encode w StatusOK (JSONComments entries), s)
    /\ Status (handleComments env w r s).1 = StatusOK
    /\ length entries = size s
    /\ (forall e, e ∈ entries <-> exists id c, s !! id = Some c /\ e = toResponse c).
Proof.
  intros Hm Hctx Hw. unfold handleComments. rewrite Hm.
  replace (String.eqb "GET" "GET") with true by reflexivity.
  unfold storage.List. rewrite (ctx_done_live _ Hctx).
  eexists. split; [reflexivity|]. split; [apply Status_encode, Hw|]. split.
  - rewrite !length_fmap, length_map_to_list. reflexivity.
  - intros e. rewrite list_elem_of_fmap. split.
    + intros (c & -> & Hc). apply elem_of_values in Hc as [id Hid]. eauto.
    + intros (id & c & Hid & ->). exists c. split; [reflexivity|].
      apply elem_of_values. eauto.
Qed.

(** GET of an identifier that is not stored. *)
Lemma GET_missing env w r s id :
  Method r = "GET" ->
  Path r = "/api/v1/comments/" ++ id ->
  id <> "" ->
  ctx_err (ReqContext r) = None ->
  s !! id = None ->
  handleComment env w r s = (http_Error w "Comment not found" StatusNotFound, s).
Proof.
  intros Hm Hpath Hid Hctx Hs.
  assert (Hidb : String.eqb id "" = false) by (apply String.eqb_neq; exact Hid).
  unfold handleComment. rewrite Hpath, TrimPrefix_app, Hidb, Hm.
  replace (String.eqb "GET" "GET") with true by reflexivity.
  unfold storage.Get. rewrite (ctx_done_live _ Hctx), Hs. reflexivity.
Qed.

(** X12. GET on one record, on a live context: 200 with the record when the
    identifier is stored, no matter who owns it or who asks, and 404 when
    it is not; the store is not changed either way. *)
Theorem GET_one_record env w r s id :
  Method r = "GET" ->
  Path r = "/api/v1/comments/" ++ id ->
  id <> "" ->
  ctx_err (ReqContext r) = None ->
  Status w = 0 ->
  (forall c, s !! id = Some c ->
     handleComment env w r s = (encode w StatusOK (JSONComment (toResponse c)), s)
     /\ Status (handleComment env w r s).1 = StatusOK)
  /\ (s !! id = None ->
      handleComment env w r s = (http_Error w "Comment not found" StatusNotFound, s)
      /\ Status (handleComment env w r s).1 = StatusNotFound).
Proof.
  intros Hm Hpath Hid Hctx Hw.
  assert (Hidb : String.eqb id "" = false) by (apply String.eqb_neq; exact Hid).
  unfold handleComment. rewrite Hpath, TrimPrefix_app, Hidb, Hm.
  replace (String.eqb "GET" "GET") with true by reflexivity.
  unfold storage.Get. rewrite (ctx_done_live _ Hctx). split.
  - intros c ->. split; [reflexivity|]. apply Status_encode, Hw.
  - intros ->. split; [reflexivity|]. apply Status_http_Error, Hw.
Qed.

(** X13. PUT by the owner with a body that decodes and passes validation, on a
    live context: 200, and the record under that identifier now has the
    content and author sent and the identifier, timestamp and owner it had;
    the reply is that record. *)
Theorem PUT_by_owner_updates env w r s id existing content author :
  Method r = "PUT" ->
  Path r = "/api/v1/comments/" ++ id ->
  id <> "" ->
  ReqBody r = BodyJSON content author ->
  Valid (mkCreateCommentRequest content author) = ∅ ->
  ctx_err (ReqContext r) = None ->
  s !! id = Some existing ->
  storage.UserID existing = UserIDFromContext (ReqContext r) ->
  let updated :=
    storage.mkComment (storage.ID existing) content author
      (storage.CreatedAt existing) (storage.UserID existing) in
  handleComment env w r s
  = (encode w StatusOK (JSONComment (toResponse updated)), <[id := updated]> s).
Proof.
  intros Hm Hpath Hid Hb Hv Hctx Hs Hown updated.
  assert (Hidb : String.eqb id "" = false) by (apply String.eqb_neq; exact Hid).
  unfold handleComment. rewrite Hpath, TrimPrefix_app, Hidb, Hm.
  replace (String.eqb "PUT" "GET") with false by reflexivity.
  replace (String.eqb "PUT" "PUT") with true by reflexivity.
  rewrite (decodeValid_ok _ _ _ Hb Hv).
  replace (0 <? size (∅ : gmap string string))%nat with false by reflexivity.
  rewrite (Get_found _ _ _ _ Hctx Hs).
  rewrite Hown, String.eqb_refl. cbn [negb].
  rewrite (Update_found _ _ _ _ _ Hctx Hs). reflexivity.
Qed.

(** X14. DELETE by the owner on a live context: 204 with nothing written to the
    body, the record gone and every other record as before; a GET of the
    same path afterwards is answered 404. *)
Theorem DELETE_by_owner_removes env w r r' s id existing :
  Method r = "DELETE" ->
  Path r = "/api/v1/comments/" ++ id ->
  id <> "" ->
  ctx_err (ReqContext r) = None ->
  s !! id = Some existing ->
  storage.UserID existing = UserIDFromContext (ReqContext r) ->
  Status w = 0 ->
  Method r' = "GET" -> Path r' = Path r -> ctx_err (ReqContext r') = None ->
  handleComment env w r s = (WriteHeader w StatusNoContent, delete id s)
  /\ Status (handleComment env w r s).1 = StatusNoContent
  /\ RespBody (handleComment env w r s).1 = RespBody w
  /\ Status (handleComment env w r' (handleComment env w r s).2).1 = StatusNotFound.
Proof.
  intros Hm Hpath Hid Hctx Hs Hown Hw Hm' Hpath' Hctx'.
  assert (Hidb : String.eqb id "" = false) by (apply String.eqb_neq; exact Hid).
  assert (Hdel : handleComment env w r s = (WriteHeader w StatusNoContent, delete id s)).
  { unfold handleComment. rewrite Hpath, TrimPrefix_app, Hidb, Hm.
    replace (String.eqb "DELETE" "GET") with false by reflexivity.
    replace (String.eqb "DELETE" "PUT") with false by reflexivity.
    replace (String.eqb "DELETE" "DELETE") with true by reflexivity.
    rewrite (Get_found _ _ _ _ Hctx Hs).
    rewrite Hown, String.eqb_refl. cbn [negb].
    unfold storage.Delete. rewrite (ctx_done_live _ Hctx), Hs. reflexivity. }
  rewrite Hdel. cbn [fst snd]. split; [reflexivity|].
  split; [apply Status_WriteHeader, Hw|]. split.
  - unfold WriteHeader. destruct (Status w =? 0); reflexivity.
  - rewrite Hpath in Hpath'.
    rewrite (GET_missing env w r' (delete id s) id Hm' Hpath' Hid Hctx')
      by apply lookup_delete_eq.
    apply Status_http_Error, Hw.
Qed.

(** GET of a stored identifier. *)
Lemma GET_stored env w r s id c :
  Method r = "GET" ->
  Path r = "/api/v1/comments/" ++ id ->
  id <> "" ->
  ctx_err (ReqContext r) = None ->
  s !! id = Some c ->
  handleComment env w r s = (encode w StatusOK (JSONComment (toResponse c)), s).
Proof.
  intros Hm Hpath Hid Hctx Hs.
  assert (Hidb : String.eqb id "" = false) by (apply String.eqb_neq; exact Hid).
  unfold handleComment. rewrite Hpath, TrimPrefix_app, Hidb, Hm.
  replace (String.eqb "GET" "GET") with true by reflexivity.
  rewrite (Get_found _ _ _ _ Hctx Hs). reflexivity.
Qed.

(** X15. The record a POST creates can be read back: a GET of the new
    identifier on the resulting store replies 200 with the same JSON
    object the POST replied with. *)
Theorem POST_then_GET_round_trip env w r s content author env' w' r' :
  Method r = "POST" ->
  ReqBody r = BodyJSON content author ->
  Valid (mkCreateCommentRequest content author) = ∅ ->
  ctx_err (ReqContext r) = None ->
  env_id env <> "" ->
  Method r' = "GET" ->
  Path r' = "/api/v1/comments/" ++ env_id env ->
  ctx_err (ReqContext r') = None ->
  Status w' = 0 ->
  let created := handleComments env w r s in
  let fetched := handleComment env' w' r' created.2 in
  Status fetched.1 = StatusOK
  /\ RespBody fetched.1 = RespBody created.1
  /\ fetched.2 = created.2.
Proof.
  intros Hm Hb Hv Hctx Hid Hm' Hpath' Hctx' Hw' created fetched.
  subst created fetched. unfold handleComments. rewrite Hm.
  replace (String.eqb "POST" "GET") with false by reflexivity.
  replace (String.eqb "POST" "POST") with true by reflexivity.
  rewrite (decodeValid_ok _ _ _ Hb Hv).
  replace (0 <? size (∅ : gmap string string))%nat with false by reflexivity.
  rewrite (Create_live _ _ _ _ _ Hctx). cbn [fst snd].
  erewrite (GET_stored env' w' r' _ (env_id env)); try eassumption;
    [|apply lookup_insert_eq].
  cbn [fst snd]. split; [apply Status_encode, Hw'|]. split; reflexivity.
Qed.

(** X16. PUT with a valid body and DELETE of an identifier that is not stored,
    on a live context, are answered 404 and change nothing: a PUT never
    creates a record. *)
Theorem unknown_id_is_404 env w r s id :
  Path r = "/api/v1/comments/" ++ id ->
  id <> "" ->
  ctx_err (ReqContext r) = None ->
  s !! id = None ->
  Status w = 0 ->
  Method r = "DELETE"
  \/ (Method r = "PUT"
      /\ exists content author,
           ReqBody r = BodyJSON content author
           /\ Valid (mkCreateCommentRequest content author) = ∅) ->
  handleComment env w r s = (http_Error w "Comment not found" StatusNotFound, s)
  /\ Status (handleComment env w r s).1 = StatusNotFound.
Proof.
  intros Hpath Hid Hctx Hs Hw Hreq.
  assert (Hidb : String.eqb id "" = false) by (apply String.eqb_neq; exact Hid).
  assert (Hget : storage.Get (ReqContext r) id s = (Err ErrNotFound, s)).
  { unfold storage.Get. rewrite (ctx_done_live _ Hctx), Hs. reflexivity. }
  assert (Heq : handleComment env w r s = (http_Error w "Comment not found" StatusNotFound, s)).
  { unfold handleComment. rewrite Hpath, TrimPrefix_app, Hidb.
    destruct Hreq as [Hm|(Hm & content & author & Hb & Hv)]; rewrite Hm.
    - replace (String.eqb "DELETE" "GET") with false by reflexivity.
      replace (String.eqb "DELETE" "PUT") with false by reflexivity.
      replace (String.eqb "DELETE" "DELETE") with true by reflexivity.
      rewrite Hget. reflexivity.
    - replace (String.eqb "PUT" "GET") with false by reflexivity.
      replace (String.eqb "PUT" "PUT") with true by reflexivity.
      rewrite (decodeValid_ok _ _ _ Hb Hv).
      replace (0 <? size (∅ : gmap string string))%nat with false by reflexivity.
      rewrite Hget. reflexivity. }
  rewrite Heq. split; [reflexivity|]. apply Status_http_Error, Hw.
Qed.

(** Methods the handlers do not serve are answered 405, and a request to
    the record handler whose path carries no identifier is answered 400
    whatever its method; neither changes the store. *)
Theorem unserved_requests_are_refused env w r s :
  (Method r <> "GET" -> Method r <> "POST" ->
   handleComments env w r s = (http_Error w "Method Not Allowed" StatusMethodNotAllowed, s))
  /\ (TrimPrefix (Path r) "/api/v1/comments/" = "" ->
      handleComment env w r s = (http_Error w "Comment ID required" StatusBadRequest, s))
  /\ (TrimPrefix (Path r) "/api/v1/comments/" <> "" ->
      Method r <> "GET" -> Method r <> "PUT" -> Method r <> "DELETE" ->
      handleComment env w r s
      = (http_Error w "Method Not Allowed" StatusMethodNotAllowed, s)).
Proof.
  split; [|split].
  - intros Hg Hp. unfold handleComments.
    apply String.eqb_neq in Hg, Hp. rewrite Hg, Hp. reflexivity.
  - intros Hid. unfold handleComment. rewrite Hid. reflexivity.
  - intros Hid Hg Hp Hd. unfold handleComment.
    apply String.eqb_neq in Hid, Hg, Hp, Hd. rewrite Hid, Hg, Hp, Hd. reflexivity.
Qed.

(** X17. The map of validation problems is never sent: whatever the request,
    neither handler writes it to the body, although both have a branch
    that would. *)
Theorem problems_are_never_sent env w r s :
  (forall p, RespBody w <> JSONProblems p) ->
  (forall p, RespBody (handleComments env w r s).1 <> JSONProblems p)
  /\ (forall p, RespBody (handleComment env w r s).1 <> JSONProblems p).
Proof.
  intros Hw.
  assert (Hwh : forall code p, RespBody (WriteHeader w code) <> JSONProblems p).
  { intros code p. unfold WriteHeader. destruct (Status w =? 0); apply Hw. }
  assert (Hdv : forall v problems, decodeValid r = (v, problems, None) ->
                (0 <? size problems)%nat = false).
  { intros v problems E. apply decodeValid_no_error in E. subst. reflexivity. }
  split; intros p.
  - unfold handleComments.
    destruct (String.eqb (Method r) "GET").
    { destruct (storage.List _ s) as [[l|e] s']; discriminate. }
    destruct (String.eqb (Method r) "POST"); [|discriminate].
    destruct (decodeValid r) as [[v problems] [err|]] eqn:E; [discriminate|].
    rewrite (Hdv _ _ eq_refl).
    destruct (storage.Create _ _ _ _ s) as [[c|e] s']; discriminate.
  - unfold handleComment.
    destruct (String.eqb _ ""); [discriminate|].
    destruct (String.eqb (Method r) "GET").
    { destruct (storage.Get _ _ s) as [[c|[|e]] s']; discriminate. }
    destruct (String.eqb (Method r) "PUT").
    { destruct (decodeValid r) as [[v problems] [err|]] eqn:E; [discriminate|].
      rewrite (Hdv _ _ eq_refl).
      destruct (storage.Get _ _ s) as [[c|[|e]] s']; try discriminate.
      destruct (negb _); [discriminate|].
      destruct (storage.Update _ _ _ s') as [[c'|e] s'']; discriminate. }
    destruct (String.eqb (Method r) "DELETE"); [|discriminate].
    destruct (storage.Get _ _ s) as [[c|[|e]] s']; try discriminate.
    destruct (negb _); [discriminate|].
    destruct (storage.Delete _ _ s') as [[e|] s'']; [discriminate|apply Hwh].
Qed.

(** X18. On a cancelled context no request changes the store, and the requests
    that reach the store (GET, a POST or PUT with a valid body, DELETE) are
    answered 500. *)
Theorem cancelled_requests_get_500 env w r s e :
  ctx_err (ReqContext r) = Some e ->
  Status w = 0 ->
  (handleComments env w r s).2 = s
  /\ (handleComment env w r s).2 = s
  /\ (Method r = "GET"
      \/ (Method r = "POST"
          /\ exists content author,
               ReqBody r = BodyJSON content author
               /\ Valid (mkCreateCommentRequest content author) = ∅) ->
      Status (handleComments env w r s).1 = StatusInternalServerError)
  /\ (TrimPrefix (Path r) "/api/v1/comments/" <> "" ->
      Method r = "GET" \/ Method r = "DELETE"
      \/ (Method r = "PUT"
          /\ exists content author,
               ReqBody r = BodyJSON content author
               /\ Valid (mkCreateCommentRequest content author) = ∅) ->
      Status (handleComment env w r s).1 = StatusInternalServerError).
Proof.
  intros Hctx Hw.
  destruct (cancelled_operations_are_noops_aux (ReqContext r) e s Hctx)
    as (Hcreate & Hget & Hlist & Hupdate & Hdelete).
  assert (H500 : forall msg, Status (http_Error w msg StatusInternalServerError)
                             = StatusInternalServerError)
    by (intros; apply Status_http_Error, Hw).
  split; [|split; [|split]].
  - unfold handleComments. rewrite Hlist.
    destruct (String.eqb (Method r) "GET"); [reflexivity|].
    destruct (String.eqb (Method r) "POST"); [|reflexivity].
    destruct (decodeValid r) as [[v problems] [err|]]; [reflexivity|].
    destruct (0 <? size problems)%nat; [reflexivity|]. rewrite Hcreate. reflexivity.
  - unfold handleComment. rewrite Hget.
    destruct (String.eqb _ ""); [reflexivity|].
    destruct (String.eqb (Method r) "GET"); [reflexivity|].
    destruct (String.eqb (Method r) "PUT").
    { destruct (decodeValid r) as [[v problems] [err|]]; [reflexivity|].
      destruct (0 <? size problems)%nat; reflexivity. }
    destruct (String.eqb (Method r) "DELETE"); reflexivity.
  - unfold handleComments. rewrite Hlist.
    intros [Hm|(Hm & content & author & Hb & Hv)]; rewrite Hm.
    + replace (String.eqb "GET" "GET") with true by reflexivity. apply H500.
    + replace (String.eqb "POST" "GET") with false by reflexivity.
      replace (String.eqb "POST" "POST") with true by reflexivity.
      rewrite (decodeValid_ok _ _ _ Hb Hv).
      replace (0 <? size (∅ : gmap string string))%nat with false by reflexivity.
      rewrite Hcreate. apply H500.
  - intros Hid. apply String.eqb_neq in Hid.
    unfold handleComment. rewrite Hid, Hget.
    intros [Hm|[Hm|(Hm & content & author & Hb & Hv)]]; rewrite Hm.
    + replace (String.eqb "GET" "GET") with true by reflexivity. apply H500.
    + replace (String.eqb "DELETE" "GET") with false by reflexivity.
      replace (String.eqb "DELETE" "PUT") with false by reflexivity.
      replace (String.eqb "DELETE" "DELETE") with true by reflexivity. apply H500.
    + replace (String.eqb "PUT" "GET") with false by reflexivity.
      replace (String.eqb "PUT" "PUT") with true by reflexivity.
      rewrite (decodeValid_ok _ _ _ Hb Hv).
      replace (0 <? size (∅ : gmap string string))%nat with false by reflexivity.
      apply H500.
Qed.

(** X19. The validation rule of POST, on a live context: the reply is 201
    exactly when the body decodes to a content that is not blank and at
    most 1000 bytes long and to an author that is not blank, and 400 in
    every other case. *)
Theorem POST_validation_rule env w r s :
  Method r = "POST" ->
  ctx_err (ReqContext r) = None ->
  Status w = 0 ->
  (Status (handleComments env w r s).1 = StatusCreated
   <-> exists content author,
         ReqBody r = BodyJSON content author
         /\ TrimSpace content <> "" /\ len content <= 1000 /\ TrimSpace author <> "")
  /\ (Status (handleComments env w r s).1 = StatusCreated
      \/ Status (handleComments env w r s).1 = StatusBadRequest).
Proof.
  intros Hm Hctx Hw.
  assert (Hshape :
    (exists content author, ReqBody r = BodyJSON content author
       /\ Valid (mkCreateCommentRequest content author) = ∅
       /\ Status (handleComments env w r s).1 = StatusCreated)
    \/ Status (handleComments env w r s).1 = StatusBadRequest).
  { unfold handleComments, decodeValid. rewrite Hm.
    replace (String.eqb "POST" "GET") with false by reflexivity.
    replace (String.eqb "POST" "POST") with true by reflexivity.
    destruct (ReqBody r) as [msg|content author];
      [right; apply Status_http_Error, Hw|].
    destruct (0 <? size (Valid _))%nat eqn:Hsz;
      [right; apply Status_http_Error, Hw|].
    replace (0 <? size (∅ : gmap string string))%nat with false by reflexivity.
    rewrite (Create_live _ _ _ _ _ Hctx). left. exists content, author.
    split; [reflexivity|]. split; [|apply Status_encode, Hw].
    destruct (decide (Valid (mkCreateCommentRequest content author) = ∅)) as [E|E];
      [exact E|]. apply size_pos_nonempty in E. congruence. }
  split.
  - split; [apply handleComments_created, Hw|].
    intros (content & author & Hb & Hvalid).
    destruct Hshape as [(c' & a' & Hb' & _ & Hst)|Hbad]; [exact Hst|].
    exfalso. revert Hbad. unfold handleComments. rewrite Hm.
    replace (String.eqb "POST" "GET") with false by reflexivity.
    replace (String.eqb "POST" "POST") with true by reflexivity.
    rewrite (decodeValid_ok _ _ _ Hb)
      by (apply (Valid_empty (mkCreateCommentRequest content author)); exact Hvalid).
    replace (0 <? size (∅ : gmap string string))%nat with false by reflexivity.
    rewrite (Create_live _ _ _ _ _ Hctx). cbn [fst].
    rewrite (Status_encode _ _ _ Hw). discriminate.
  - destruct Hshape as [(c' & a' & _ & _ & Hst)|Hbad]; [left|right]; assumption.
Qed.

End handler_more.

(** * More of the token service and the gate *)

Section token_more.

Import auth.

Context `{JWTLib}.

Implicit Types (m : JWTManager) (now : Time).

(** The claims [GenerateToken] signs. *)
Definition issued_claims m (userID role : string) (t_exp t_iat t_nbf : Time) : Claims :=
  mkClaims userID role
    (mkRegisteredClaims "" "" []
       (Some (NewNumericDate (t_exp + expiry m)))
       (Some (NewNumericDate t_nbf))
       (Some (NewNumericDate t_iat))
       "").

Lemma DecodeSegments_GenerateToken m userID role t_exp t_iat t_nbf :
  exists text,
    DecodeSegments (GenerateToken m userID role t_exp t_iat t_nbf)
    = Some (mkToken (mkHeader "JWT" (Some "HS256"))
              (issued_claims m userID role t_exp t_iat t_nbf)
              text (hmac SHA256 (secretKey m) text)).
Proof. eexists. unfold GenerateToken. apply DecodeSegments_Compact. Qed.

(** Inside its window an issued token validates to the claims signed. *)
Lemma ValidateToken_issued m userID role t_exp t_iat t_nbf now :
  NewNumericDate t_nbf <= now ->
  now < NewNumericDate (t_exp + expiry m) ->
  ValidateToken m (GenerateToken m userID role t_exp t_iat t_nbf) now
  = inl (issued_claims m userID role t_exp t_iat t_nbf).
Proof.
  intros Hnbf Hexp.
  destruct (DecodeSegments_GenerateToken m userID role t_exp t_iat t_nbf) as [text Hd].
  rewrite (ValidateToken_accepts m _ now _ SHA256 Hd); [reflexivity..| |].
  - cbn. intros nbf [= <-]. exact Hnbf.
  - cbn. intros exp [= <-]. exact Hexp.
Qed.

(** X20. A token issued by a manager validates under that manager exactly from
    its not-before instant (the clock reading truncated to the second) up
    to, and not including, its expiry instant. *)
Theorem issued_token_window m userID role t_exp t_iat t_nbf now :
  (exists claims,
     ValidateToken m (GenerateToken m userID role t_exp t_iat t_nbf) now = inl claims)
  <-> NewNumericDate t_nbf <= now < NewNumericDate (t_exp + expiry m).
Proof.
  split.
  - intros [claims Hv].
    destruct (DecodeSegments_GenerateToken m userID role t_exp t_iat t_nbf) as [text Hd].
    unfold ValidateToken in Hv.
    destruct (ParseWithClaims _ (keyFunc m) now) as [[token valid]|err] eqn:Hp;
      [|discriminate].
    apply ParseWithClaims_inl in Hp as (_ & Hd' & _ & Hval).
    rewrite Hd in Hd'. injection Hd' as <-.
    apply Validate_nil in Hval as [Hnbf Hexp]. cbn in Hnbf, Hexp.
    split; [apply Hnbf|apply Hexp]; reflexivity.
  - intros [Hnbf Hexp]. eexists. apply ValidateToken_issued; assumption.
Qed.

(** X21. What [ValidateToken] refuses before it looks at any signature or
    date: a string that does not decode (malformed), and a token whose
    [alg] is missing, unknown, or names a method outside the HMAC family
    such as "none" or "RS256" (unverifiable). *)
Theorem ValidateToken_refuses_other_algorithms m tokenStr now :
  (DecodeSegments tokenStr = None ->
   ValidateToken m tokenStr now = inr (InvalidToken ErrTokenMalformed))
  /\ (forall token,
        DecodeSegments tokenStr = Some token ->
        (forall h, alg (TokenHeader token) <> Some (Alg (SigningMethodHMAC h))) ->
        ValidateToken m tokenStr now = inr (InvalidToken ErrTokenUnverifiable)).
Proof.
  split.
  - intros Hd. unfold ValidateToken, ParseWithClaims. rewrite Hd. reflexivity.
  - intros token Hd Halg. unfold ValidateToken, ParseWithClaims. rewrite Hd.
    destruct (alg (TokenHeader token)) as [a|]; [|reflexivity]. cbn [mbind option_bind].
    unfold GetSigningMethod.
    destruct (String.eqb_spec a "HS256") as [->|_]; [destruct (Halg SHA256); reflexivity|].
    destruct (String.eqb_spec a "HS384") as [->|_]; [destruct (Halg SHA384); reflexivity|].
    destruct (String.eqb_spec a "HS512") as [->|_]; [destruct (Halg SHA512); reflexivity|].
    destruct (String.eqb a "RS256" || String.eqb a "RS384" || String.eqb a "RS512");
      [reflexivity|].
    destruct (String.eqb a "PS256" || String.eqb a "PS384" || String.eqb a "PS512");
      [reflexivity|].
    destruct (String.eqb a "ES256" || String.eqb a "ES384" || String.eqb a "ES512");
      [reflexivity|].
    destruct (String.eqb a "EdDSA"); [reflexivity|].
    destruct (String.eqb a "none"); reflexivity.
Qed.

(** A token of the HMAC family signed under the manager's secret is
    refused with the not-valid-yet error among the claim errors while the
    clock is before its not-before instant. *)
Theorem ValidateToken_before_nbf m tokenStr now token h nbf :
  DecodeSegments tokenStr = Some token ->
  alg (TokenHeader token) ≫= GetSigningMethod = Some (SigningMethodHMAC h) ->
  Signature token = hmac h (secretKey m) (SigningInput token) ->
  NotBefore (Registered (TokenClaims token)) = Some nbf ->
  now < nbf ->
  exists errs,
    ValidateToken m tokenStr now = inr (InvalidToken (ErrTokenInvalidClaims errs))
    /\ ErrTokenNotValidYet ∈ errs.
Proof.
  intros Hd Ha Hsig Hnbf Hlt. unfold ValidateToken.
  rewrite (ParseWithClaims_hmac _ _ _ _ _ Hd Ha).
  apply HMACVerify_true in Hsig. rewrite Hsig.
  assert (Hin : ErrTokenNotValidYet ∈ Validate (Registered (TokenClaims token)) now).
  { unfold Validate, verifyNotBefore. rewrite Hnbf.
    apply Before_true in Hlt. rewrite Hlt. cbn [negb]. set_solver. }
  destruct (Validate _ now) as [|e errs]; [set_solver|].
  eexists. split; [reflexivity|exact Hin].
Qed.

End token_more.

Section gate_more.

Import api.

Context `{auth.JWTLib} `{GoStrings}.

Implicit Types (r : Request) (w : ResponseWriter) (s : gmap string storage.Comment)
  (env : Env) (next mux : Handler).

(** The writer the CORS middleware hands on. *)
Definition with_CORS_headers (w : ResponseWriter) : ResponseWriter :=
  Header_Set
    (Header_Set (Header_Set w "Access-Control-Allow-Origin" "*")
       "Access-Control-Allow-Methods" "GET, POST, PUT, DELETE, OPTIONS")
    "Access-Control-Allow-Headers" "Content-Type, Authorization".

(** X22. A request with a valid bearer token to a non-public path reaches the
    handler behind the gate and the logging middleware with its method,
    path, headers and body as they were, its context cancelled or not as
    it was, and the token's subject and role as the identity the handlers
    read. *)
Theorem gate_attaches_identity jwtSecret next env w r s claims :
  isPublicPath (Path r) = false ->
  bearer_claims jwtSecret env r = Some claims ->
  exists r',
    newAuthMiddleware jwtSecret (NewLoggingMiddleware next) env w r s = next env w r' s
    /\ Method r' = Method r /\ Path r' = Path r
    /\ Header r' = Header r /\ ReqBody r' = ReqBody r
    /\ ctx_err (ReqContext r') = ctx_err (ReqContext r)
    /\ UserIDFromContext (ReqContext r') = auth.UserID claims
    /\ UserRoleFromContext (ReqContext r') = auth.Role claims.
Proof.
  intros Hpath Hbearer.
  rewrite (newAuthMiddleware_accepts _ _ _ _ _ _ _ Hpath Hbearer).
  unfold NewLoggingMiddleware. eexists. split; [reflexivity|].
  repeat split.
Qed.

(** X23. OPTIONS is answered by the CORS middleware alone, for every path and
    whatever the token: 200, the three CORS headers, nothing written to the
    body, the store unchanged, the router never asked.  The replies the
    gate itself gives (401) carry the CORS headers too. *)
Theorem CORS_preflight_and_headers jwtSecret mux env w r s :
  (Method r = "OPTIONS" ->
   NewServer jwtSecret mux env w r s = (WriteHeader (with_CORS_headers w) StatusOK, s))
  /\ (Method r = "OPTIONS"
      \/ (isPublicPath (Path r) = false /\ bearer_claims jwtSecret env r = None) ->
      let reply := (NewServer jwtSecret mux env w r s).1 in
      RespHeader reply !! "Access-Control-Allow-Origin" = Some "*"
      /\ RespHeader reply !! "Access-Control-Allow-Methods"
         = Some "GET, POST, PUT, DELETE, OPTIONS"
      /\ RespHeader reply !! "Access-Control-Allow-Headers"
         = Some "Content-Type, Authorization").
Proof.
  assert (Hopt : Method r = "OPTIONS" ->
    NewServer jwtSecret mux env w r s = (WriteHeader (with_CORS_headers w) StatusOK, s)).
  { intros Hm. unfold NewServer, newCORSMiddleware. rewrite Hm. reflexivity. }
  split; [exact Hopt|].
  intros Hcase reply. subst reply.
  destruct (String.eqb_spec (Method r) "OPTIONS") as [Hm|Hm].
  - rewrite (Hopt Hm). cbn [fst]. unfold WriteHeader.
    destruct (Status _ =? 0); cbn [RespHeader];
      (split; [|split]); unfold with_CORS_headers, Header_Set; cbn [RespHeader];
      repeat (rewrite lookup_insert_ne by discriminate); apply lookup_insert_eq.
  - destruct Hcase as [Hm'|[Hpath Hbearer]]; [contradiction|].
    unfold NewServer, newCORSMiddleware.
    apply String.eqb_neq in Hm. rewrite Hm.
    rewrite (newAuthMiddleware_rejects _ _ _ _ _ _ Hpath Hbearer). cbn [fst].
    unfold http_Error, writeBody, WriteHeader, Header_Set. cbn [RespHeader Status].
    destruct (Status w =? 0); cbn [RespHeader];
      (split; [|split]);
      repeat (rewrite lookup_insert_ne by discriminate); apply lookup_insert_eq.
Qed.

(** X24. The logger asks the context for the plain string "user_id", the gate
    stores the identity under a key of its own type, and the two never
    meet: for a request that passed the gate, the entry the logging
    middleware writes carries the request identifier but no "user_id",
    although the handlers do read the identity from the same context. *)
Theorem request_log_misses_the_identity env r remoteAddr uid role :
  Value (ReqContext r) (StringKey "user_id") = None ->
  let r' := WithContext r
              (WithValue (WithValue (ReqContext r) UserIDKey uid) UserRoleKey role) in
  exists entry,
    logging.request_started env r' remoteAddr = Some entry
    /\ logging.entry_Fields entry !! "request_id"
       = Some (logging.VString (env_request_id env))
    /\ logging.entry_Fields entry !! "user_id" = None
    /\ UserIDFromContext (ReqContext r') = uid.
Proof.
  intros Hplain r'. unfold logging.request_started, logging.log.
  cbn [logging.Level_rank logging.NewLogger_level Z.ltb Z.compare].
  eexists. split; [reflexivity|].
  assert (Hu : Value (WithValue (ReqContext r') (StringKey "request_id")
                        (env_request_id env)) (StringKey "user_id") = None).
  { unfold Value in *. cbn. exact Hplain. }
  rewrite Hu. cbn [logging.entry_Fields logging.add_fields].
  split; [|split; [|reflexivity]].
  - repeat (rewrite lookup_insert_ne by discriminate). apply lookup_insert_eq.
  - repeat (rewrite lookup_insert_ne by discriminate).
    unfold Value. cbn. rewrite lookup_insert_ne by discriminate. apply lookup_empty.
Qed.

End gate_more.

(** * Login and configuration *)

Section login_facts.

Import api login.

Context `{auth.JWTLib} `{GoStrings}.

Implicit Types (m : auth.JWTManager) (w : LoginWriter) (body : LoginBody).

Lemma LoginStatus_Error w msg code :
  LoginStatus w = 0 -> LoginStatus (login_Error w msg code) = code.
Proof. intros Hw. unfold login_Error, login_WriteHeader. cbn. rewrite Hw. reflexivity. Qed.

Lemma LoginStatus_encode w status v :
  LoginStatus w = 0 -> LoginStatus (login_encode w status v) = status.
Proof. intros Hw. unfold login_encode, login_WriteHeader. cbn. rewrite Hw. reflexivity. Qed.

(** A request that carries an issued token as its bearer token, inside
    the token's window, has the issued claims as its bearer claims. *)
Lemma bearer_claims_issued jwtSecret userID role t_exp t_iat t_nbf env (r : Request) :
  Header r !! "Authorization"
  = Some ("Bearer " ++ auth.GenerateToken (auth.NewJWTManager jwtSecret (24 * auth.Hour))
                         userID role t_exp t_iat t_nbf) ->
  t_nbf <= env_auth_now env ->
  env_auth_now env < auth.NewNumericDate (t_exp + 24 * auth.Hour) ->
  bearer_claims jwtSecret env r
  = Some (issued_claims (auth.NewJWTManager jwtSecret (24 * auth.Hour))
            userID role t_exp t_iat t_nbf).
Proof.
  intros Hauth Hnbf Hexp.
  unfold bearer_claims, Header_Get. rewrite Hauth. cbn [default from_option id].
  rewrite HasPrefix_app, TrimPrefix_app.
  rewrite ValidateToken_issued; [reflexivity| |exact Hexp].
  pose proof (Truncate_le t_nbf). unfold auth.NewNumericDate. lia.
Qed.

(** The cases of [handleLogin], on a writer nothing was written to. *)
Lemma handleLogin_cases m t_exp t_iat t_nbf w method body :
  LoginStatus w = 0 ->
  let reply := handleLogin m t_exp t_iat t_nbf w method body in
  (method = "POST" /\ body = LoginJSON "test" "test123"
   /\ login.Valid (mkLoginRequest "test" "test123") = ∅
   /\ reply = login_encode w StatusOK
                (LoginToken (mkLoginResponse
                   (auth.GenerateToken m "test" "user" t_exp t_iat t_nbf) 86400)))
  \/ ((method <> "POST" \/ body <> LoginJSON "test" "test123"
       \/ login.Valid (mkLoginRequest "test" "test123") <> ∅)
      /\ exists msg code,
           reply = login_Error w msg code
           /\ (code = StatusMethodNotAllowed \/ code = StatusBadRequest
               \/ code = StatusUnauthorized)).
Proof.
  intros Hw reply. subst reply. unfold handleLogin.
  destruct (String.eqb_spec method "POST") as [->|Hm]; cbn [negb];
    [|right; split; [left; exact Hm|eauto 8]].
  unfold login.decodeValid.
  destruct body as [msg|username password];
    [right; split; [right; left; discriminate|eauto 8]|].
  destruct (0 <? size (login.Valid (mkLoginRequest username password)))%nat eqn:Hsz.
  { right. split; [|eauto 8].
    destruct (decide (username = "test")) as [->|E];
      [|right; left; congruence].
    destruct (decide (password = "test123")) as [->|E];
      [|right; left; congruence].
    right. right. apply size_pos_nonempty. exact Hsz. }
  replace (0 <? size (∅ : gmap string string))%nat with false by reflexivity.
  cbn [Username Password].
  destruct (String.eqb_spec username "test") as [->|Hu]; cbn [negb orb];
    [|right; split; [right; left; congruence|eauto 8]].
  destruct (String.eqb_spec password "test123") as [->|Hp]; cbn [negb];
    [|right; split; [right; left; congruence|eauto 8]].
  left. split; [reflexivity|]. split; [reflexivity|]. split; [|reflexivity].
  destruct (decide (login.Valid (mkLoginRequest "test" "test123") = ∅)) as [E|E];
    [exact E|]. apply size_pos_nonempty in E. congruence.
Qed.

(** X25. [handleLogin] issues a token for exactly one request: a POST whose
    body decodes to the user name "test" and the password "test123", both
    compared as sent.  Every other request is answered 405, 400 or 401
    with a line of text and no token. *)
Theorem login_issues_a_token_only_for_the_test_user m t_exp t_iat t_nbf w method body :
  LoginStatus w = 0 ->
  let reply := handleLogin m t_exp t_iat t_nbf w method body in
  ((exists resp, LoginBodyOut reply = LoginToken resp)
   <-> method = "POST" /\ body = LoginJSON "test" "test123"
       /\ login.Valid (mkLoginRequest "test" "test123") = ∅)
  /\ ((forall resp, LoginBodyOut reply <> LoginToken resp) ->
      LoginStatus reply = StatusMethodNotAllowed
      \/ LoginStatus reply = StatusBadRequest
      \/ LoginStatus reply = StatusUnauthorized).
Proof.
  intros Hw reply.
  destruct (handleLogin_cases m t_exp t_iat t_nbf w method body Hw)
    as [(Hm & Hb & Hv & Hr)|(Hnot & msg & code & Hr & Hcode)];
    fold reply in Hr; rewrite Hr.
  - split.
    + split; [auto|]. intros _. eexists. reflexivity.
    + intros Hno. exfalso. eapply Hno. reflexivity.
  - split.
    + split; [intros [resp Hresp]; discriminate|].
      intros (Hm & Hb & Hv). destruct Hnot as [?|[?|?]]; contradiction.
    + intros _. rewrite (LoginStatus_Error _ _ _ Hw). exact Hcode.
Qed.

(** X26. A successful login is answered 200 with an expiry of 86400 seconds
    and a token that the gate's validator, under the same manager, accepts
    from the moment of issue until the token's expiry, with subject
    "test" and role "user". *)
Theorem login_token_is_accepted m t_exp t_iat t_nbf w now :
  LoginStatus w = 0 ->
  login.Valid (mkLoginRequest "test" "test123") = ∅ ->
  t_nbf <= now ->
  now < auth.NewNumericDate (t_exp + auth.expiry m) ->
  exists token claims,
    handleLogin m t_exp t_iat t_nbf w "POST" (LoginJSON "test" "test123")
    = login_encode w StatusOK (LoginToken (mkLoginResponse token 86400))
    /\ LoginStatus (handleLogin m t_exp t_iat t_nbf w "POST" (LoginJSON "test" "test123"))
       = StatusOK
    /\ auth.ValidateToken m token now = inl claims
    /\ auth.UserID claims = "test"
    /\ auth.Role claims = "user".
Proof.
  intros Hw Hv Hnbf Hexp.
  destruct (handleLogin_cases m t_exp t_iat t_nbf w "POST" (LoginJSON "test" "test123") Hw)
    as [(_ & _ & _ & Hr)|([?|[?|?]] & _)]; try contradiction.
  eexists _, _. split; [exact Hr|]. split; [rewrite Hr; apply LoginStatus_encode, Hw|].
  split.
  - apply ValidateToken_issued; [|exact Hexp].
    pose proof (Truncate_le t_nbf). unfold auth.NewNumericDate. lia.
  - split; reflexivity.
Qed.

(** X27. From login to a stored comment: a POST to the comments collection
    that carries the token a login issued as its bearer token, while the
    token is valid and with a body that passes validation, goes through
    the CORS middleware, the gate and the logging middleware to
    [handleComments] (the handler [addRoutes] registers for that path, here
    in the router's place) and is answered 201; the record stored belongs
    to "test". *)
Theorem logged_in_POST_creates_an_owned_record jwtSecret t_exp t_iat t_nbf env
    (w : ResponseWriter) r (s : gmap string storage.Comment) content author :
  let m := auth.NewJWTManager jwtSecret (24 * auth.Hour) in
  let token := auth.GenerateToken m "test" "user" t_exp t_iat t_nbf in
  Header r !! "Authorization" = Some ("Bearer " ++ token) ->
  Method r = "POST" ->
  Path r = "/api/v1/comments" ->
  ReqBody r = BodyJSON content author ->
  api.Valid (mkCreateCommentRequest content author) = ∅ ->
  ctx_err (ReqContext r) = None ->
  t_nbf <= env_auth_now env ->
  env_auth_now env < auth.NewNumericDate (t_exp + 24 * auth.Hour) ->
  Status w = 0 ->
  let record := storage.mkComment (env_id env) content author (env_now env) "test" in
  NewServer jwtSecret handleComments env w r s
  = (encode (with_CORS_headers w) StatusCreated (JSONComment (toResponse record)),
     <[env_id env := record]> s)
  /\ Status (NewServer jwtSecret handleComments env w r s).1 = StatusCreated.
Proof.
  intros m token Hauth Hm Hpath Hb Hv Hctx Hnbf Hexp Hw record.
  pose proof (bearer_claims_issued jwtSecret "test" "user" t_exp t_iat t_nbf env r
                Hauth Hnbf Hexp) as Hbearer.
  assert (Hpub : isPublicPath (Path r) = false) by (rewrite Hpath; reflexivity).
  assert (Heq : NewServer jwtSecret handleComments env w r s
    = (encode (with_CORS_headers w) StatusCreated (JSONComment (toResponse record)),
       <[env_id env := record]> s)).
  { unfold NewServer, newCORSMiddleware. rewrite Hm.
    replace (String.eqb "POST" "OPTIONS") with false by reflexivity.
    rewrite (newAuthMiddleware_accepts _ _ _ _ _ _ _ Hpub Hbearer).
    unfold NewLoggingMiddleware, handleComments, api.decodeValid.
    cbn [Method ReqBody WithContext].
    rewrite Hm, Hb, Hv.
    replace (String.eqb "POST" "GET") with false by reflexivity.
    replace (String.eqb "POST" "POST") with true by reflexivity.
    replace (0 <? size (∅ : gmap string string))%nat with false by reflexivity.
    rewrite Create_live by exact Hctx. reflexivity. }
  split; [exact Heq|]. rewrite Heq. cbn [fst]. apply Status_encode. exact Hw.
Qed.

End login_facts.

Section config_facts.

Import config.

(** X28. [Load] succeeds exactly when JWT_SECRET is set.  The configuration it
    returns has that secret, and no empty field: an unset ENVIRONMENT
    becomes "development", an unset DATABASE_URL "memory://", and values
    that are set are kept. *)
Theorem Load_requires_the_secret (getenv : string -> string) :
  (getenv "JWT_SECRET" = "" <-> exists err, Load getenv = inr err)
  /\ (forall cfg, Load getenv = inl cfg ->
        JWTSecret cfg = getenv "JWT_SECRET"
        /\ JWTSecret cfg <> "" /\ Environment cfg <> "" /\ DatabaseURL cfg <> ""
        /\ (getenv "ENVIRONMENT" <> "" -> Environment cfg = getenv "ENVIRONMENT")
        /\ (getenv "ENVIRONMENT" = "" -> Environment cfg = "development")
        /\ (getenv "DATABASE_URL" <> "" -> DatabaseURL cfg = getenv "DATABASE_URL")
        /\ (getenv "DATABASE_URL" = "" -> DatabaseURL cfg = "memory://")).
Proof.
  unfold Load. cbn [JWTSecret Environment DatabaseURL].
  destruct (String.eqb_spec (getenv "JWT_SECRET") "") as [Hs|Hs].
  - split; [split; eauto|]. discriminate.
  - split; [split; [contradiction|intros [err [=]]]|].
    intros cfg.
    destruct (String.eqb_spec (getenv "ENVIRONMENT") "") as [He|He];
      cbn [JWTSecret Environment DatabaseURL];
      destruct (String.eqb_spec (getenv "DATABASE_URL") "") as [Hd|Hd];
      intros [= <-]; cbn [JWTSecret Environment DatabaseURL];
      repeat split; try assumption; try discriminate; try contradiction;
      try reflexivity; intros; congruence.
Qed.

End config_facts.

(** * The properties above on concrete inputs *)

Definition bob_record : storage.Comment :=
  storage.mkComment "c2" "second" "Bob" 2500 "bob".
Definition store2 : gmap string storage.Comment := <["c2" := bob_record]> store1.

Lemma keyed_store1 : keyed store1.
Proof.
  intros id c. unfold store1. rewrite lookup_singleton_Some. intros [<- <-]. reflexivity.
Qed.

Lemma Delete_then_not_found_witness :
  store1 !! "c1" = Some alice_record
  /\ exists s', storage.Delete Background "c1" store1 = (None, s')
                /\ storage.Get Background "c1" s' = (Err ErrNotFound, s')
                /\ storage.Delete Background "c1" s' = (Some ErrNotFound, s').
Proof.
  split; [reflexivity|].
  destruct (Delete_then_not_found Background Background "c1" store1 alice_record
              eq_refl eq_refl eq_refl) as (s' & Hd & _ & _ & _ & Hg & Hd2).
  exists s'. auto.
Defined.

Lemma missing_id_is_not_found_witness :
  store1 !! "zz" = None
  /\ storage.Update Background "zz" forged_draft store1 = (Err ErrNotFound, store1).
Proof.
  split; [reflexivity|].
  apply (missing_id_is_not_found Background "zz" forged_draft store1 eq_refl eq_refl).
Defined.

Lemma Create_effect_witness :
  exists r s',
    storage.Create Background forged_draft "c9" 1800 store1 = (Ok r, s')
    /\ storage.UserID r = "mallory" /\ storage.ID r = "c9"
    /\ (storage.Count Background s').1.1 = 2.
Proof.
  destruct (Create_effect Background Background forged_draft "c9" 1800 store1
              eq_refl eq_refl) as (r & s' & Hc & -> & _ & _ & Hfresh & _).
  eexists _, s'. split; [exact Hc|]. split; [reflexivity|]. split; [reflexivity|].
  rewrite Hfresh by reflexivity. reflexivity.
Defined.

Lemma List_is_the_store_witness :
  exists l, storage.List Background store2 = (Ok l, store2)
            /\ Z.of_nat (length l) = 2 /\ alice_record ∈ l /\ bob_record ∈ l.
Proof.
  destruct (List_is_the_store Background store2 eq_refl) as (l & Hl & Hin & Hlen & _).
  exists l. split; [exact Hl|]. split; [rewrite Hlen; reflexivity|].
  split; apply Hin; [exists "c1"|exists "c2"]; reflexivity.
Defined.

Lemma ListByUser_is_the_owners_records_witness :
  exists l, storage.ListByUser Background "bob" store2 = (Ok l, store2)
            /\ bob_record ∈ l /\ alice_record ∉ l.
Proof.
  destruct (ListByUser_is_the_owners_records Background "bob" store2 eq_refl)
    as (l & Hl & Hin).
  exists l. split; [exact Hl|]. split.
  - apply Hin. split; [exists "c2"|]; reflexivity.
  - intros Ha. apply Hin in Ha as [_ Hu]. discriminate.
Defined.

Lemma DeleteByUser_removes_the_owners_records_witness :
  exists s', storage.DeleteByUser Background "alice" store2 = (None, s')
             /\ s' !! "c2" = Some bob_record /\ s' !! "c1" = None.
Proof.
  destruct (DeleteByUser_removes_the_owners_records Background Background "alice" store2
              eq_refl eq_refl) as (s' & Hd & Hlookup & _).
  exists s'. split; [exact Hd|]. split.
  - apply Hlookup. split; [reflexivity|discriminate].
  - destruct (s' !! "c1") as [c|] eqn:E; [|reflexivity].
    apply Hlookup in E as [E Hne]. vm_compute in E. injection E as <-.
    exfalso. apply Hne. reflexivity.
Defined.


Lemma keyed_is_invariant_witness :
  keyed store1
  /\ keyed (storage.Create Background forged_draft "c9" 1800 store1).2
  /\ keyed (storage.Update Background "c1" forged_draft store1).2.
Proof.
  split; [exact keyed_store1|].
  destruct (keyed_is_invariant Background store1 keyed_store1)
    as (_ & Hcreate & Hupdate & _).
  split; [apply Hcreate|apply Hupdate].
Defined.

(** Requests to the handlers, on a fresh writer. *)
Definition hello : api.Body := api.BodyJSON "hello" "Alice".

Lemma hello_is_valid :
  @api.Valid api.ascii_strings (api.mkCreateCommentRequest "hello" "Alice") = ∅.
Proof. reflexivity. Qed.

Lemma POST_creates_the_record_witness :
  (@api.handleComments api.ascii_strings env0 api.newResponseWriter
     (request_of "alice" "POST" "/api/v1/comments" hello) store1).2 !! "c2"
  = Some (storage.mkComment "c2" "hello" "Alice" 1800 "alice").
Proof.
  rewrite (@POST_creates_the_record api.ascii_strings env0 api.newResponseWriter
             (request_of "alice" "POST" "/api/v1/comments" hello) store1 "hello" "Alice"
             eq_refl eq_refl hello_is_valid eq_refl).
  apply lookup_insert_eq.
Defined.

Lemma GET_lists_every_record_witness :
  api.Status
    (@api.handleComments api.ascii_strings env0 api.newResponseWriter
       (request_of "bob" "GET" "/api/v1/comments" (api.BodyUndecodable "EOF")) store2).1
  = 200.
Proof.
  destruct (@GET_lists_every_record api.ascii_strings env0 api.newResponseWriter
              (request_of "bob" "GET" "/api/v1/comments" (api.BodyUndecodable "EOF"))
              store2 eq_refl eq_refl eq_refl) as (entries & _ & Hst & _).
  exact Hst.
Defined.

Lemma GET_one_record_witness :
  api.Status
    (@api.handleComment api.ascii_strings env0 api.newResponseWriter
       (request_of "bob" "GET" "/api/v1/comments/c1" (api.BodyUndecodable "EOF"))
       store1).1 = 200
  /\ api.Status
       (@api.handleComment api.ascii_strings env0 api.newResponseWriter
          (request_of "bob" "GET" "/api/v1/comments/c1" (api.BodyUndecodable "EOF"))
          ∅).1 = 404.
Proof.
  split.
  - destruct (@GET_one_record api.ascii_strings env0 api.newResponseWriter
                (request_of "bob" "GET" "/api/v1/comments/c1" (api.BodyUndecodable "EOF"))
                store1 "c1" eq_refl eq_refl ltac:(discriminate) eq_refl eq_refl)
      as [Hfound _].
    apply (Hfound alice_record eq_refl).
  - destruct (@GET_one_record api.ascii_strings env0 api.newResponseWriter
                (request_of "bob" "GET" "/api/v1/comments/c1" (api.BodyUndecodable "EOF"))
                ∅ "c1" eq_refl eq_refl ltac:(discriminate) eq_refl eq_refl)
      as [_ Hmissing].
    apply (Hmissing eq_refl).
Defined.

Lemma PUT_by_owner_updates_witness :
  (@api.handleComment api.ascii_strings env0 api.newResponseWriter
     (request_of "alice" "PUT" "/api/v1/comments/c1" hello) store1).2 !! "c1"
  = Some (storage.mkComment "c1" "hello" "Alice" 1700 "alice").
Proof.
  rewrite (@PUT_by_owner_updates api.ascii_strings env0 api.newResponseWriter
             (request_of "alice" "PUT" "/api/v1/comments/c1" hello) store1 "c1"
             alice_record "hello" "Alice"
             eq_refl eq_refl ltac:(discriminate) eq_refl hello_is_valid eq_refl
             eq_refl eq_refl).
  apply lookup_insert_eq.
Defined.

Lemma DELETE_by_owner_removes_witness :
  api.Status
    (@api.handleComment api.ascii_strings env0 api.newResponseWriter
       (request_of "alice" "DELETE" "/api/v1/comments/c1" (api.BodyUndecodable "EOF"))
       store1).1 = 204.
Proof.
  destruct (@DELETE_by_owner_removes api.ascii_strings env0 api.newResponseWriter
              (request_of "alice" "DELETE" "/api/v1/comments/c1" (api.BodyUndecodable "EOF"))
              (request_of "bob" "GET" "/api/v1/comments/c1" (api.BodyUndecodable "EOF"))
              store1 "c1" alice_record
              eq_refl eq_refl ltac:(discriminate) eq_refl eq_refl eq_refl eq_refl
              eq_refl eq_refl eq_refl) as (_ & Hst & _).
  exact Hst.
Defined.

Lemma POST_then_GET_round_trip_witness :
  api.Status
    (@api.handleComment api.ascii_strings env0 api.newResponseWriter
       (request_of "bob" "GET" "/api/v1/comments/c2" (api.BodyUndecodable "EOF"))
       (@api.handleComments api.ascii_strings env0 api.newResponseWriter
          (request_of "alice" "POST" "/api/v1/comments" hello) store1).2).1 = 200.
Proof.
  destruct (@POST_then_GET_round_trip api.ascii_strings env0 api.newResponseWriter
              (request_of "alice" "POST" "/api/v1/comments" hello) store1 "hello" "Alice"
              env0 api.newResponseWriter
              (request_of "bob" "GET" "/api/v1/comments/c2" (api.BodyUndecodable "EOF"))
              eq_refl eq_refl hello_is_valid eq_refl ltac:(discriminate)
              eq_refl eq_refl eq_refl eq_refl) as (Hst & _).
  exact Hst.
Defined.

Lemma unknown_id_is_404_witness :
  api.Status
    (@api.handleComment api.ascii_strings env0 api.newResponseWriter
       (request_of "alice" "PUT" "/api/v1/comments/zz" hello) store1).1 = 404
  /\ (@api.handleComment api.ascii_strings env0 api.newResponseWriter
        (request_of "alice" "PUT" "/api/v1/comments/zz" hello) store1).2 = store1.
Proof.
  destruct (@unknown_id_is_404 api.ascii_strings env0 api.newResponseWriter
              (request_of "alice" "PUT" "/api/v1/comments/zz" hello) store1 "zz"
              eq_refl ltac:(discriminate) eq_refl eq_refl eq_refl
              (or_intror (conj eq_refl
                 (ex_intro _ "hello" (ex_intro _ "Alice" (conj eq_refl hello_is_valid))))))
    as [Heq Hst].
  split; [exact Hst|]. rewrite Heq. reflexivity.
Defined.

Lemma problems_are_never_sent_witness :
  api.RespBody
    (@api.handleComment api.ascii_strings env0 api.newResponseWriter
       (request_of "alice" "PUT" "/api/v1/comments/c1" (api.BodyJSON "" "")) store1).1
  <> api.JSONProblems
       (@api.Valid api.ascii_strings (api.mkCreateCommentRequest "" "")).
Proof.
  apply (@problems_are_never_sent api.ascii_strings env0 api.newResponseWriter
           (request_of "alice" "PUT" "/api/v1/comments/c1" (api.BodyJSON "" "")) store1).
  intros p. discriminate.
Defined.

Lemma cancelled_requests_get_500_witness :
  api.Status
    (@api.handleComments api.ascii_strings env0 api.newResponseWriter
       (api.mkRequest "GET" "/api/v1/comments" ∅ (api.BodyUndecodable "EOF") cancelled)
       store1).1 = 500.
Proof.
  destruct (@cancelled_requests_get_500 api.ascii_strings env0 api.newResponseWriter
              (api.mkRequest "GET" "/api/v1/comments" ∅ (api.BodyUndecodable "EOF") cancelled)
              store1 Canceled eq_refl eq_refl) as (_ & _ & Hst & _).
  apply Hst. left. reflexivity.
Defined.

Lemma POST_validation_rule_witness :
  api.Status
    (@api.handleComments api.ascii_strings env0 api.newResponseWriter
       (request_of "alice" "POST" "/api/v1/comments" hello) store1).1 = 201.
Proof.
  destruct (@POST_validation_rule api.ascii_strings env0 api.newResponseWriter
              (request_of "alice" "POST" "/api/v1/comments" hello) store1
              eq_refl eq_refl eq_refl) as [Hiff _].
  apply Hiff. exists "hello", "Alice". split; [reflexivity|].
  split; [discriminate|]. split; [vm_compute; discriminate|discriminate].
Defined.

(** A token that names no algorithm of the HMAC family, and a request that
    carries the token issued at [issue_time] as its bearer token. *)
Definition none_header : auth.Header := auth.mkHeader "JWT" (Some "none").

Definition none_token : string :=
  toy_Compact (toy_SigningString none_header test_claims) "".

Definition bearer_request (method path : string) (body : api.Body) : api.Request :=
  api.mkRequest method path {[ "Authorization" := "Bearer " ++ test_token ]} body Background.

Lemma bearer_request_claims method path body :
  @bearer_claims toy_jwt "test-secret" env0 (bearer_request method path body)
  = Some (issued_claims server_manager "test" "user" issue_time issue_time issue_time).
Proof.
  apply (@bearer_claims_issued toy_jwt "test-secret" "test" "user"
           issue_time issue_time issue_time env0 (bearer_request method path body)).
  - apply lookup_singleton_eq.
  - vm_compute. discriminate.
  - vm_compute. reflexivity.
Qed.

Lemma ValidateToken_refuses_other_algorithms_witness :
  @auth.ValidateToken toy_jwt server_manager none_token (issue_time + 5)
  = inr (auth.InvalidToken auth.ErrTokenUnverifiable).
Proof.
  destruct (@ValidateToken_refuses_other_algorithms toy_jwt server_manager none_token
              (issue_time + 5)) as [_ Halg].
  apply (Halg (auth.mkToken none_header test_claims
                 (toy_SigningString none_header test_claims) "")).
  - apply toy_DecodeSegments_Compact.
  - intros [] [=].
Defined.

Lemma ValidateToken_before_nbf_witness :
  exists errs,
    @auth.ValidateToken toy_jwt server_manager test_token 5
    = inr (auth.InvalidToken (auth.ErrTokenInvalidClaims errs))
    /\ auth.ErrTokenNotValidYet ∈ errs.
Proof.
  apply (@ValidateToken_before_nbf toy_jwt server_manager test_token 5
           (auth.mkToken test_header test_claims
              (toy_SigningString test_header test_claims)
              (toy_hmac auth.SHA256 "test-secret"
                 (toy_SigningString test_header test_claims)))
           auth.SHA256 (100 * auth.Second)).
  - apply toy_DecodeSegments_Compact.
  - reflexivity.
  - reflexivity.
  - reflexivity.
  - vm_compute. reflexivity.
Defined.

Lemma gate_attaches_identity_witness :
  exists r',
    @api.newAuthMiddleware toy_jwt "test-secret"
      (api.NewLoggingMiddleware (@api.handleComments api.ascii_strings))
      env0 api.newResponseWriter (bearer_request "POST" "/api/v1/comments" hello) store1
    = @api.handleComments api.ascii_strings env0 api.newResponseWriter r' store1
    /\ api.UserIDFromContext (api.ReqContext r') = "test".
Proof.
  destruct (@gate_attaches_identity toy_jwt "test-secret"
              (@api.handleComments api.ascii_strings) env0 api.newResponseWriter
              (bearer_request "POST" "/api/v1/comments" hello) store1 _
              eq_refl (bearer_request_claims "POST" "/api/v1/comments" hello))
    as (r' & Heq & _ & _ & _ & _ & _ & Huid & _).
  exists r'. split; [exact Heq|exact Huid].
Defined.

Lemma CORS_preflight_and_headers_witness :
  api.RespHeader
    (test_server env0 api.newResponseWriter
       (anonymous "DELETE" "/api/v1/comments/c1") store1).1
  !! "Access-Control-Allow-Origin" = Some "*".
Proof.
  destruct (@CORS_preflight_and_headers toy_jwt "test-secret"
              (@api.handleComments api.ascii_strings) env0 api.newResponseWriter
              (anonymous "DELETE" "/api/v1/comments/c1") store1) as [_ Hheaders].
  apply Hheaders. right. split; reflexivity.
Defined.

Lemma request_log_misses_the_identity_witness :
  exists entry,
    logging.request_started env0
      (api.WithContext (anonymous "GET" "/api/v1/comments") (ctx_of "alice")) "127.0.0.1:5000"
    = Some entry
    /\ logging.entry_Fields entry !! "user_id" = None
    /\ api.UserIDFromContext (ctx_of "alice") = "alice".
Proof.
  destruct (request_log_misses_the_identity env0 (anonymous "GET" "/api/v1/comments")
              "127.0.0.1:5000" "alice" "user" eq_refl)
    as (entry & He & _ & Hu & Hid).
  exists entry. split; [exact He|]. split; [exact Hu|exact Hid].
Defined.

Lemma login_issues_a_token_only_for_the_test_user_witness :
  login.LoginStatus
    (@login.handleLogin toy_jwt api.ascii_strings server_manager
       issue_time issue_time issue_time login.newLoginWriter "POST"
       (login.LoginJSON "test" "wrong")) = 401.
Proof.
  destruct (@login_issues_a_token_only_for_the_test_user toy_jwt api.ascii_strings
              server_manager issue_time issue_time issue_time login.newLoginWriter "POST"
              (login.LoginJSON "test" "wrong") eq_refl) as [Hiff Hstatus].
  destruct Hstatus as [Hs|[Hs|Hs]].
  - intros resp Hresp.
    destruct (proj1 Hiff (ex_intro _ resp Hresp)) as (_ & Hb & _). discriminate.
  - exfalso. revert Hs. vm_compute. discriminate.
  - exfalso. revert Hs. vm_compute. discriminate.
  - exact Hs.
Defined.

Lemma login_token_is_accepted_witness :
  exists token claims,
    login.LoginBodyOut
      (@login.handleLogin toy_jwt api.ascii_strings server_manager
         issue_time issue_time issue_time login.newLoginWriter "POST"
         (login.LoginJSON "test" "test123"))
    = login.LoginToken (login.mkLoginResponse token 86400)
    /\ @auth.ValidateToken toy_jwt server_manager token (issue_time + 5) = inl claims
    /\ auth.UserID claims = "test".
Proof.
  destruct (@login_token_is_accepted toy_jwt api.ascii_strings server_manager
              issue_time issue_time issue_time login.newLoginWriter (issue_time + 5)
              eq_refl eq_refl ltac:(vm_compute; discriminate) ltac:(vm_compute; reflexivity))
    as (token & claims & Heq & _ & Hv & Hu & _).
  exists token, claims. split; [rewrite Heq; reflexivity|]. split; [exact Hv|exact Hu].
Defined.

Lemma logged_in_POST_creates_an_owned_record_witness :
  api.Status
    (test_server env0 api.newResponseWriter
       (bearer_request "POST" "/api/v1/comments" hello) store1).1 = 201
  /\ (test_server env0 api.newResponseWriter
        (bearer_request "POST" "/api/v1/comments" hello) store1).2 !! "c2"
     = Some (storage.mkComment "c2" "hello" "Alice" 1800 "test").
Proof.
  destruct (@logged_in_POST_creates_an_owned_record toy_jwt api.ascii_strings
              "test-secret" issue_time issue_time issue_time env0 api.newResponseWriter
              (bearer_request "POST" "/api/v1/comments" hello) store1 "hello" "Alice"
              (lookup_singleton_eq _ _) eq_refl eq_refl eq_refl hello_is_valid eq_refl
              ltac:(vm_compute; discriminate) ltac:(vm_compute; reflexivity) eq_refl)
    as [Heq Hst].
  split; [exact Hst|]. unfold test_server. rewrite Heq. apply lookup_insert_eq.
Defined.
